(** * yffpy: the Yahoo fantasy football query facade

    A shallow embedding of [src/yffpy/query.py] (class
    [YahooFantasyFootballQuery]) together with the response unpacker it
    relies on, and the properties of the specification stated over it.

    Python values are an inductive type, Python dictionaries are
    association lists in insertion order, exceptions are an explicit
    outcome, and side effects (files, HTTP, logging, the OAuth library)
    are threaded through a small state monad that records a trace of
    events. *)

From Stdlib Require Import ZArith Lia Ascii String.
From stdpp Require Import base list strings gmap sorting pretty.

Local Open Scope string_scope.
Local Open Scope list_scope.
Set Warnings "-register-all".

(** ** Python values *)

(** JSON-decoded documents plus instances of the typed models.  A
    dictionary keeps its entries in insertion order; the keys of a decoded
    JSON object are always strings.  Numbers are integers: the code never
    computes with them. *)
Inductive pyval : Type :=
| PyNone
| PyBool (b : bool)
| PyInt (z : Z)
| PyStr (s : string)
| PyList (l : list pyval)
| PyDict (d : list (string * pyval))
| PyObj (cls : string) (payload : pyval).

(** Python exceptions that the modelled code can raise. *)
Inductive exn : Type :=
| AttributeError (attr : string)
| KeyError (key : string)
| TypeError
| IndexError
| FileNotFoundError (path : string)
| ExternalError (what : string).

Inductive outcome (A : Type) : Type :=
| Returned (a : A)
| Raised (e : exn).
Arguments Returned {A} a.
Arguments Raised {A} e.

(** Modelled from the spec: the construction of a typed model
    ([yffpy.models] is not among the sources).  An instance carries the
    name of its model and keeps the value it was constructed from. *)
Definition instantiate (cls : string) (value : pyval) : pyval := PyObj cls value.

(** First entry stored under [k]; a decoded dictionary has one at most. *)
Fixpoint dict_lookup (k : string) (d : list (string * pyval)) : option pyval :=
  match d with
  | [] => None
  | (k', v) :: d' => if String.eqb k k' then Some v else dict_lookup k d'
  end.

Definition dict_keys (d : list (string * pyval)) : list string := map fst d.

(** [x.get(k)]: only dictionaries have the method; a missing key gives
    [None]. *)
Definition py_get (x : pyval) (k : string) : outcome pyval :=
  match x with
  | PyDict d => Returned (default PyNone (dict_lookup k d))
  | _ => Raised (AttributeError "get")
  end.

(** [x[k]] with a string key [k]. *)
Definition py_getitem (x : pyval) (k : string) : outcome pyval :=
  match x with
  | PyDict d =>
      match dict_lookup k d with
      | Some v => Returned v
      | None => Raised (KeyError k)
      end
  | _ => Raised TypeError
  end.

(** ** The unpacker *)

(** [yffpy.utils] is not among the sources: everything in this module
    follows section 4.1 of the specification. *)
Module Unpacker.

Definition is_digit (c : ascii) : bool :=
  let n := nat_of_ascii c in (48 <=? n)%nat && (n <=? 57)%nat.

Definition digit_val (c : ascii) : nat := nat_of_ascii c - 48.

Fixpoint parse_digits (acc : nat) (s : string) : option nat :=
  match s with
  | EmptyString => Some acc
  | String c s' =>
      if is_digit c then parse_digits (10 * acc + digit_val c) s' else None
  end.

(** Modelled from the spec: a key of [yffpy.utils.unpack_data]'s input
    parses as a non-negative integer when it is a non-empty run of decimal
    digits. *)
Definition parse_index (s : string) : option nat :=
  match s with
  | EmptyString => None
  | _ => parse_digits 0 s
  end.

Definition is_count (k : string) : bool := String.eqb k "count".

(** Modelled from the spec: the entries other than ["count"] with their
    keys parsed, for [yffpy.utils.unpack_data]; [None] when some key is not
    an integer. *)
Fixpoint parse_entries (d : list (string * pyval)) : option (list (nat * pyval)) :=
  match d with
  | [] => Some []
  | (k, v) :: d' =>
      if is_count k then parse_entries d'
      else match parse_index k, parse_entries d' with
           | Some i, Some r => Some ((i, v) :: r)
           | _, _ => None
           end
  end.

(** Modelled from the spec: the integer-like keys of a mapping given to
    [yffpy.utils.unpack_data], that is those other than ["count"] that
    parse as an integer, parsed, in the order of the mapping. *)
Fixpoint int_keys (d : list (string * pyval)) : list nat :=
  match d with
  | [] => []
  | (k, _) :: d' =>
      if is_count k then int_keys d'
      else match parse_index k with
           | Some i => i :: int_keys d'
           | None => int_keys d'
           end
  end.

Fixpoint insert_by_key (e : nat * pyval) (l : list (nat * pyval)) : list (nat * pyval) :=
  match l with
  | [] => [e]
  | e' :: l' => if (e.1 <=? e'.1)%nat then e :: l else e' :: insert_by_key e l'
  end.

(** Modelled from the spec: the entries sorted by ascending integer key,
    for [yffpy.utils.unpack_data]. *)
Definition sort_by_key (l : list (nat * pyval)) : list (nat * pyval) :=
  foldr insert_by_key [] l.

Definition nat_list_eqb (l1 l2 : list nat) : bool := bool_decide (l1 = l2).

(** Modelled from the spec: the list-as-map test of
    [yffpy.utils.unpack_data], which is not among the sources.  A mapping
    matches when it carries the literal ["count"] key, every other key
    parses as a non-negative integer, and the integer keys are exactly
    [0 .. n-1].  On a match the result is the values in ascending key
    order. *)
Definition normalize (d : list (string * pyval)) : option (list pyval) :=
  if existsb is_count (dict_keys d) then
    match parse_entries d with
    | Some es =>
        let sorted := sort_by_key es in
        if nat_list_eqb (map fst sorted) (seq 0 (length es))
        then Some (map snd sorted)
        else None
    | None => None
    end
  else None.

(** Modelled from the spec: promotion of a mapping stored under a key
    that names a registered typed model ([yffpy.models] is not among the
    sources).  The registry [ns] maps a field name to its model; the
    instance keeps the mapping it was built from. *)
Definition promote (ns : list (string * string)) (k : string) (v : pyval) : pyval :=
  match v with
  | PyDict _ =>
      match list_find (fun e => e.1 = k) ns with
      | Some (_, (_, cls)) => instantiate cls v
      | None => v
      end
  | _ => v
  end.

(** Modelled from the spec: [yffpy.utils.unpack_data], which is not among
    the sources (section 4.1).  Scalars are returned unchanged, sequences
    are unpacked element by element, and the values of a mapping are
    unpacked first; the mapping is then turned into a sequence when it is
    a list-as-map, and otherwise kept as a mapping whose values are
    promoted by field name. *)
Fixpoint unpack (ns : list (string * string)) (v : pyval) : pyval :=
  match v with
  | PyList l => PyList (map (unpack ns) l)
  | PyDict d =>
      let d' := map (fun kv => (kv.1, unpack ns kv.2)) d in
      match normalize d' with
      | Some vs => PyList vs
      | None => PyDict (map (fun kv => (kv.1, promote ns kv.1 kv.2)) d')
      end
  | _ => v
  end.

End Unpacker.

(** ** Effects *)

Inductive loglevel : Type := DEBUG | WARNING | ERROR.

(** What the code does to the outside world, in the order it does it. *)
Inductive event : Type :=
| EvOpenRead (path : string)
| EvOpenWrite (path : string) (content : pyval)
| EvIsFile (path : string)
| EvOAuth2 (from_file : string)
| EvTokenIsValid
| EvRefreshAccessToken
| EvHttpGet (url : string) (params : list (string * string))
| EvLog (lvl : loglevel) (msg : string) (args : list pyval).

(** The files that hold a JSON document, by path, and the events so far. *)
Record world : Type := World {
  files : gmap string pyval;
  trace : list event
}.

Definition M (A : Type) : Type := world -> outcome A * world.

Definition ret {A} (a : A) : M A := fun w => (Returned a, w).

Definition raise {A} (e : exn) : M A := fun w => (Raised e, w).

Definition bind {A B} (m : M A) (k : A -> M B) : M B :=
  fun w =>
    match m w with
    | (Returned a, w') => k a w'
    | (Raised e, w') => (Raised e, w')
    end.

Definition lift {A} (o : outcome A) : M A := fun w => (o, w).

Definition emit (e : event) : M unit :=
  fun w => (Returned tt, World (files w) (trace w ++ [e])).

Declare Scope py_scope.
Delimit Scope py_scope with py.
Notation "x <- m ;; k" := (bind m (fun x => k))
  (at level 100, m at next level, right associativity) : py_scope.
Notation "m ;;; k" := (bind m (fun _ => k))
  (at level 100, right associativity) : py_scope.
Local Open Scope py_scope.

(** Sequencing of pure fallible steps. *)
Definition obind {A B} (o : outcome A) (k : A -> outcome B) : outcome B :=
  match o with
  | Returned a => k a
  | Raised e => Raised e
  end.

Definition log (lvl : loglevel) (msg : string) (args : list pyval) : M unit :=
  emit (EvLog lvl msg args).

(** [with open(path) as f: json.load(f)].  The files of the model hold
    JSON documents and nothing else: a file that exists but does not
    decode, and the errors of the operating system other than a missing
    file, are outside of it. *)
Definition json_load_file (path : string) : M pyval :=
  emit (EvOpenRead path) ;;;
  fun w =>
    match files w !! path with
    | Some doc => (Returned doc, w)
    | None => (Raised (FileNotFoundError path), w)
    end.

(** [with open(path, "w") as f: json.dump(doc, f)].  A path that cannot
    be written is outside the model: the write goes through. *)
Definition json_dump_file (path : string) (doc : pyval) : M unit :=
  emit (EvOpenWrite path doc) ;;;
  fun w => (Returned tt, World (<[path := doc]> (files w)) (trace w)).

(** [os.path.isfile(path)] *)
Definition isfile (path : string) : M bool :=
  emit (EvIsFile path) ;;;
  fun w => (Returned (bool_decide (is_Some (files w !! path))), w).

Fixpoint ends_with_slash (s : string) : bool :=
  match s with
  | EmptyString => false
  | String c EmptyString => Ascii.eqb c "/"
  | String _ s' => ends_with_slash s'
  end.

(** [os.path.join(dir, name)] for a relative [name]. *)
Definition path_join (dir name : string) : string :=
  if String.eqb dir EmptyString || ends_with_slash dir then dir +:+ name
  else dir +:+ "/" +:+ name.

(** ** Identifiers, truthiness and the few operators the facade uses *)

(** League and game identifiers arrive as strings or integers. *)
Inductive ident : Type :=
| IdStr (s : string)
| IdInt (z : Z).

Definition ident_truthy (i : ident) : bool :=
  match i with
  | IdStr s => negb (String.eqb s EmptyString)
  | IdInt z => negb (z =? 0)%Z
  end.

(** [str(i)] *)
Definition ident_str (i : ident) : string :=
  match i with
  | IdStr s => s
  | IdInt z => pretty z
  end.

Definition ident_val (i : ident) : pyval :=
  match i with
  | IdStr s => PyStr s
  | IdInt z => PyInt z
  end.

(** [x + y] when one operand is a [str]: defined only if both are. *)
Definition str_concat (x y : pyval) : outcome pyval :=
  match x, y with
  | PyStr a, PyStr b => Returned (PyStr (a +:+ b))
  | _, _ => Raised TypeError
  end.

(** Modelled from the spec: attribute access on an instance of a typed
    model ([yffpy.models] is not among the sources); the fields of the
    mapping an instance was built from are its attributes. *)
Definition py_getattr (x : pyval) (name : string) : outcome pyval :=
  match x with
  | PyObj _ (PyDict d) =>
      match dict_lookup name d with
      | Some v => Returned v
      | None => Raised (AttributeError name)
      end
  | _ => Raised (AttributeError name)
  end.

(** [k in x.keys()] *)
Definition py_has_key (x : pyval) (k : string) : outcome bool :=
  match x with
  | PyDict d => Returned (bool_decide (is_Some (dict_lookup k d)))
  | _ => Raised (AttributeError "keys")
  end.

(** ** The facade *)

Module Query.

Section Facade.

(** The [yahoo_oauth] library and the HTTP session it owns are external:
    a session type, its construction from the token file (which may
    rewrite that file), the validity test, the refresh, and a GET that
    answers with the decoded JSON body or raises.  The answer of a GET
    may depend on everything that happened before it. *)
Variable session : Type.
Variable OAuth2 : string -> gmap string pyval -> outcome session * gmap string pyval.
Variable token_is_valid : session -> bool.
Variable refresh_access_token :
  session -> gmap string pyval -> outcome session * gmap string pyval.
Variable session_get :
  session -> list event -> string -> list (string * string) -> outcome pyval.

(** [yffpy.utils.reformat_json_list] is not among the sources. *)
Variable reformat_json_list : list pyval -> outcome pyval.

(** The models reachable from [YahooFantasyObject], by field name. *)
Variable YahooFantasyObject : list (string * string).

Record facade : Type := Facade {
  league_id : ident;
  game_id : option ident;
  (** [None] is Python's [None] *)
  league_key : option string;
  offline : bool;
  (** for the four attributes below [None] means: never assigned *)
  _yahoo_consumer_key : option pyval;
  _yahoo_consumer_secret : option pyval;
  _yahoo_access_token : option pyval;
  oauth : option session
}.

Definition oauth2_from_file (path : string) : M session :=
  emit (EvOAuth2 path) ;;;
  fun w =>
    let '(r, fs) := OAuth2 path (files w) in (r, World fs (trace w)).

Definition check_token (s : session) : M bool :=
  emit EvTokenIsValid ;;; ret (token_is_valid s).

Definition refresh (s : session) : M session :=
  emit EvRefreshAccessToken ;;;
  fun w =>
    let '(r, fs) := refresh_access_token s (files w) in (r, World fs (trace w)).

(** Lines 41-44 of [__init__]: the credentials. *)
Definition load_credentials (auth_dir : string) : M (pyval * pyval * pyval) :=
  auth_info <- json_load_file (path_join auth_dir "private.json") ;;
  consumer_key <- lift (py_getitem auth_info "consumer_key") ;;
  consumer_secret <- lift (py_getitem auth_info "consumer_secret") ;;
  ret (auth_info, consumer_key, consumer_secret).

(** Lines 47-53: load or create the OAuth2 refresh token. *)
Definition load_or_create_token (token_file_path : string) (auth_info : pyval)
    : M pyval :=
  present <- isfile token_file_path ;;
  if present : bool then json_load_file token_file_path
  else (json_dump_file token_file_path auth_info ;;; ret auth_info).

(** Lines 55-62: the access token and the three-legged handshake. *)
Definition complete_handshake (token_file_path : string) (auth_info : pyval)
    : M (option pyval * session) :=
  has_token <- lift (py_has_key auth_info "access_token") ;;
  access_token <- (if has_token : bool
                   then lift (obind (py_getitem auth_info "access_token")
                                    (fun t => Returned (Some t)))
                   else ret None) ;;
  s <- oauth2_from_file token_file_path ;;
  valid <- check_token s ;;
  s <- (if valid : bool then ret s else refresh s) ;;
  ret (access_token, s).

(** [YahooFantasyFootballQuery.__init__] *)
Definition init (auth_dir : string) (league_id : ident) (game_id : option ident)
    (offline : bool) : M facade :=
  if negb offline then
    credentials <- load_credentials auth_dir ;;
    let '(auth_info, consumer_key, consumer_secret) := credentials in
    let token_file_path := path_join auth_dir "token.json" in
    auth_info <- load_or_create_token token_file_path auth_info ;;
    handshake <- complete_handshake token_file_path auth_info ;;
    let '(access_token, s) := handshake in
    ret (Facade league_id game_id None offline
                (Some consumer_key) (Some consumer_secret) access_token (Some s))
  else
    ret (Facade league_id game_id None offline None None None None).

(** The body of the loop, lines 80-83, at the key [k]. *)
Definition key_step (raw : pyval) (k : string) : outcome pyval :=
  match raw with
  | PyList l => obind (reformat_json_list l) (fun r => py_getitem r k)
  | _ => py_get raw k
  end.

(** One round of the loop over [range(len(data_key_list))]. *)
Definition descend_step (data_key_list : list string) (raw : pyval) (i : nat)
    : outcome pyval :=
  match data_key_list !! i with
  | None => Raised IndexError
  | Some k => key_step raw k
  end.

Definition descend (data_key_list : list string) (raw : pyval) : outcome pyval :=
  foldl (fun acc i => obind acc (fun r => descend_step data_key_list r i))
        (Returned raw) (seq 0 (length data_key_list)).

(** The same descent written over the keys themselves. *)
Definition walk (acc : outcome pyval) (keys : list string) : outcome pyval :=
  foldl (fun acc k => obind acc (fun r => key_step r k)) acc keys.

Definition self_oauth (self : facade) : M session :=
  match oauth self with
  | Some s => ret s
  | None => raise (AttributeError "oauth")
  end.

Definition http_get (s : session) (url : string) (params : list (string * string))
    : M pyval :=
  emit (EvHttpGet url params) ;;;
  fun w => (session_get s (trace w) url params, w).

Definition class_name (data_type_class : option string) : pyval :=
  match data_type_class with
  | Some cls => PyStr cls
  | None => PyNone
  end.

Definition dquote : string := String (ascii_of_nat 34) EmptyString.

Definition msg_extracted_envelope : string :=
  "RESPONSE (Yahoo fantasy football data extracted from: " +:+ dquote
    +:+ "fantasy_content" +:+ dquote +:+ "): {}".

(** [YahooFantasyFootballQuery.query]; [data_type_class] is the name of a
    model or [None]; calling a model on a value is [instantiate], which
    gives an instance that keeps the value. *)
Definition query (self : facade) (url : string) (data_key_list : list string)
    (data_type_class : option string) : M pyval :=
  if negb (offline self) then
    s <- self_oauth self ;;
    response_json <- http_get s url [("format", "json")] ;;
    log DEBUG "RESPONSE (RAW JSON): {}" [response_json] ;;;
    raw_response_data <- lift (py_get response_json "fantasy_content") ;;
    log DEBUG msg_extracted_envelope [raw_response_data] ;;;
    raw_response_data <- lift (descend data_key_list raw_response_data) ;;
    log DEBUG "RESPONSE (Yahoo fantasy football data extracted from: {}): {}"
        [PyList (PyStr <$> data_key_list); raw_response_data] ;;;
    let unpacked := Unpacker.unpack YahooFantasyObject raw_response_data in
    let clean_response_data :=
      match data_type_class with
      | Some cls => instantiate cls unpacked
      | None => unpacked
      end in
    log DEBUG "UNPACKED AND PARSED JSON (Yahoo fantasy football data wth parent type: {}): {}"
        [class_name data_type_class; unpacked] ;;;
    ret (PyDict [("data", clean_response_data);
                 ("url", PyStr url);
                 ("raw", raw_response_data)])
  else
    log ERROR "CANNOT RUN YAHOO QUERY WHILE USING OFFLINE MODE!" [] ;;;
    ret PyNone.

Definition json_format : list (string * string) := [("format", "json")].

(** The value stored under ["data"]. *)
Definition typed (data_type_class : option string) (unpacked : pyval) : pyval :=
  match data_type_class with
  | Some cls => instantiate cls unpacked
  | None => unpacked
  end.

Definition record (data_type_class : option string) (url : string) (raw : pyval) : pyval :=
  PyDict [("data", typed data_type_class (Unpacker.unpack YahooFantasyObject raw));
          ("url", PyStr url);
          ("raw", raw)].

(** The events of a query that runs to its end. *)
Definition query_events (url : string) (keys : list string) (ty : option string)
    (doc payload raw : pyval) : list event :=
  [EvHttpGet url json_format;
   EvLog DEBUG "RESPONSE (RAW JSON): {}" [doc];
   EvLog DEBUG msg_extracted_envelope [payload];
   EvLog DEBUG "RESPONSE (Yahoo fantasy football data extracted from: {}): {}"
         [PyList (PyStr <$> keys); raw];
   EvLog DEBUG "UNPACKED AND PARSED JSON (Yahoo fantasy football data wth parent type: {}): {}"
         [class_name ty; Unpacker.unpack YahooFantasyObject raw]].

Definition base_url : string := "https://fantasysports.yahooapis.com/fantasy/v2/".

Definition get_current_nfl_fantasy_game (self : facade) : M pyval :=
  query self (base_url +:+ "game/nfl") ["game"] (Some "Game").

Definition get_nfl_fantasy_game (self : facade) (game_id : ident) : M pyval :=
  query self (base_url +:+ "game/" +:+ ident_str game_id) ["game"] (Some "Game").

(** [<result>.get("data").game_key + ".l." + self.league_id] *)
Definition league_key_of (self : facade) (result : pyval) : outcome pyval :=
  obind (py_get result "data") (fun data =>
  obind (py_getattr data "game_key") (fun game_key =>
  obind (str_concat game_key (PyStr ".l.")) (fun prefix =>
  str_concat prefix (ident_val (league_id self))))).

Definition str_truthy (s : option string) : bool :=
  match s with
  | Some s => negb (String.eqb s EmptyString)
  | None => false
  end.

(** [YahooFantasyFootballQuery.get_league_key].  Nothing in the method
    assigns to [self], so the facade is the same after the call. *)
Definition get_league_key (self : facade) : M pyval :=
  if negb (str_truthy (league_key self)) then
    match game_id self with
    | Some gid =>
        if ident_truthy gid then
          result <- get_nfl_fantasy_game self gid ;;
          lift (league_key_of self result)
        else
          log WARNING "No Yahoo Fantasy game id provided, defaulting to current NFL fantasy football season game id." [] ;;;
          result <- get_current_nfl_fantasy_game self ;;
          lift (league_key_of self result)
    | None =>
        log WARNING "No Yahoo Fantasy game id provided, defaulting to current NFL fantasy football season game id." [] ;;;
        result <- get_current_nfl_fantasy_game self ;;
        lift (league_key_of self result)
    end
  else
    ret (match league_key self with Some k => PyStr k | None => PyNone end).

(** [a + b + ...] where the operands other than the first are added from
    left to right and a [str] is among the first two: defined only if every
    operand is a [str]. *)
Fixpoint add_strs (acc : string) (rest : list pyval) : outcome string :=
  match rest with
  | [] => Returned acc
  | PyStr s :: rest' => add_strs (acc +:+ s) rest'
  | _ :: _ => Raised TypeError
  end.

Definition py_sum (operands : list pyval) : outcome string :=
  match operands with
  | PyStr s :: rest => add_strs s rest
  | _ => Raised TypeError
  end.

Definition get_user_game_history (self : facade) : M pyval :=
  query self (base_url +:+ "users;use_login=1/games;codes=nfl/")
        ["users"; "0"; "user"] (Some "User").

Definition get_user_league_history (self : facade) : M pyval :=
  query self (base_url +:+ "users;use_login=1/games;codes=nfl/leagues/")
        ["users"; "0"; "user"] (Some "User").

Definition get_overview (self : facade) : M pyval :=
  key <- get_league_key self ;;
  url <- lift (py_sum [PyStr (base_url +:+ "league/"); key; PyStr "/"]) ;;
  query self url ["league"] (Some "League").

Definition get_standings (self : facade) : M pyval :=
  key <- get_league_key self ;;
  url <- lift (py_sum [PyStr (base_url +:+ "league/"); key; PyStr "/standings"]) ;;
  query self url ["league"; "standings"] (Some "Standings").

Definition get_settings (self : facade) : M pyval :=
  key <- get_league_key self ;;
  url <- lift (py_sum [PyStr (base_url +:+ "league/"); key; PyStr "/settings"]) ;;
  query self url ["league"; "settings"] (Some "Settings").

Definition get_teams (self : facade) : M pyval :=
  key <- get_league_key self ;;
  url <- lift (py_sum [PyStr (base_url +:+ "league/"); key; PyStr "/teams"]) ;;
  query self url ["league"; "teams"] None.

Definition get_matchups (self : facade) (chosen_week : ident) : M pyval :=
  key <- get_league_key self ;;
  url <- lift (py_sum [PyStr (base_url +:+ "league/"); key;
                       PyStr "/scoreboard;week="; PyStr (ident_str chosen_week)]) ;;
  query self url ["league"; "scoreboard"; "0"; "matchups"] None.

Definition get_team_roster (self : facade) (team_id chosen_week : ident) : M pyval :=
  key <- get_league_key self ;;
  team_key <- lift (py_sum [key; PyStr ".t."; PyStr (ident_str team_id)]) ;;
  url <- lift (py_sum [PyStr (base_url +:+ "team/"); PyStr team_key;
                       PyStr "/roster;week="; PyStr (ident_str chosen_week);
                       PyStr "/players/stats"]) ;;
  query self url ["team"; "roster"; "0"; "players"] None.

Definition get_player_stats (self : facade) (player_key chosen_week : ident) : M pyval :=
  key <- get_league_key self ;;
  url <- lift (py_sum [PyStr (base_url +:+ "league/"); key;
                       PyStr "/players;player_keys="; PyStr (ident_str player_key);
                       PyStr "/stats;type=week;week="; PyStr (ident_str chosen_week)]) ;;
  query self url ["league"; "players"; "0"; "player"] (Some "Player").

(** The URL of the game lookup that [get_league_key] makes. *)
Definition game_url (self : facade) : string :=
  match game_id self with
  | Some gid =>
      if ident_truthy gid then base_url +:+ "game/" +:+ ident_str gid
      else base_url +:+ "game/nfl"
  | None => base_url +:+ "game/nfl"
  end.

(** Whether [get_league_key] takes the branch that warns. *)
Definition game_id_given (self : facade) : bool :=
  match game_id self with
  | Some gid => ident_truthy gid
  | None => false
  end.

Definition msg_no_game_id : string :=
  "No Yahoo Fantasy game id provided, defaulting to current NFL fantasy football season game id.".

End Facade.

End Query.

Import Query.

(** The [EvHttpGet] events of a trace, in order. *)
Fixpoint http_gets (tr : list event) : list (string * list (string * string)) :=
  match tr with
  | [] => []
  | EvHttpGet url params :: tr' => (url, params) :: http_gets tr'
  | _ :: tr' => http_gets tr'
  end.

(** The value found by following [keys] through nested mappings only;
    [None] when a key is missing or a value on the way is not a mapping. *)
Fixpoint path_in_mappings (keys : list string) (v : pyval) : option pyval :=
  match keys with
  | [] => Some v
  | k :: keys' =>
      match v with
      | PyDict d =>
          match dict_lookup k d with
          | Some x => path_in_mappings keys' x
          | None => None
          end
      | _ => None
      end
  end.

(** ** A sample environment *)

Module Sample.

(** The answer of the server to every request: the 2019 NFL game, and a
    league without fields. *)
Definition game_document : pyval :=
  PyDict [("fantasy_content",
           PyDict [("game", PyDict [("game_key", PyStr "390"); ("name", PyStr "nfl")]);
                   ("league", PyDict [])])].

Definition session_get (_ : unit) (_ : list event) (_ : string)
    (_ : list (string * string)) : outcome pyval :=
  Returned game_document.

(** An OAuth library that accepts any token file, leaves it as it is and
    finds the token valid. *)
Definition OAuth2 (_ : string) (fs : gmap string pyval)
    : outcome unit * gmap string pyval := (Returned tt, fs).

Definition refresh_access_token (_ : unit) (fs : gmap string pyval)
    : outcome unit * gmap string pyval := (Returned tt, fs).

Definition token_is_valid (_ : unit) : bool := true.

(** A normal form for sequences: the first element. *)
Definition reformat_json_list (l : list pyval) : outcome pyval :=
  match l with
  | x :: _ => Returned x
  | [] => Raised IndexError
  end.

(** The models that [query.py] imports, under their field names. *)
Definition models : list (string * string) :=
  [("game", "Game"); ("user", "User"); ("league", "League");
   ("standings", "Standings"); ("settings", "Settings"); ("player", "Player")].

Definition credentials : pyval :=
  PyDict [("consumer_key", PyStr "key"); ("consumer_secret", PyStr "secret")].

Definition token : pyval :=
  PyDict [("access_token", PyStr "abc"); ("refresh_token", PyStr "def")].

Definition empty_world : world := World ∅ [].

Definition fresh_world : world :=
  World {[ "auth/private.json" := credentials ]} [].

Definition used_world : world :=
  World {[ "auth/private.json" := credentials; "auth/token.json" := token ]} [].

(** The facade that [init] builds from [fresh_world], and its offline
    counterpart. *)
Definition online : facade unit :=
  Facade unit (IdStr "12345") (Some (IdInt 390)) None false
         (Some (PyStr "key")) (Some (PyStr "secret")) None (Some tt).

Definition offline_facade : facade unit :=
  Facade unit (IdStr "12345") (Some (IdInt 390)) None true None None None None.

(** The standings of section 8 of the specification. *)
Definition standings_document : pyval :=
  PyDict [("fantasy_content",
           PyDict [("league",
                    PyDict [("standings",
                             PyDict [("0", PyDict [("team_standings",
                                                    PyDict [("rank", PyStr "1")])]);
                                     ("count", PyInt 1)])])])].

Definition standings_get (_ : unit) (_ : list event) (_ : string)
    (_ : list (string * string)) : outcome pyval :=
  Returned standings_document.

Definition init := init unit OAuth2 token_is_valid refresh_access_token.
Definition query := query unit session_get reformat_json_list models.
Definition get_league_key := get_league_key unit session_get reformat_json_list models.
Definition descend := descend reformat_json_list.

(** A facade whose league id was given as a number. *)
Definition numbered : facade unit :=
  Facade unit (IdInt 12345) (Some (IdInt 390)) None false
         (Some (PyStr "key")) (Some (PyStr "secret")) None (Some tt).

(** A session whose GET fails. *)
Definition failing_get (_ : unit) (_ : list event) (_ : string)
    (_ : list (string * string)) : outcome pyval :=
  Raised (ExternalError "ConnectionError").

(** A server that answers with a document that has no envelope. *)
Definition bare_get (_ : unit) (_ : list event) (_ : string)
    (_ : list (string * string)) : outcome pyval :=
  Returned (PyDict [("error", PyStr "nothing here")]).

(** An OAuth library whose token is never valid at first. *)
Definition token_is_stale (_ : unit) : bool := false.

(** A world whose credential file lacks the consumer secret. *)
Definition partial_world : world :=
  World {[ "auth/private.json" := PyDict [("consumer_key", PyStr "key")] ]} [].

(** A world whose token file holds a sequence. *)
Definition odd_world : world :=
  World {[ "auth/private.json" := credentials; "auth/token.json" := PyList [] ]} [].

End Sample.

(** * Properties *)

(** ** The monad *)

Lemma obind_raised {A B} (e : exn) (k : A -> outcome B) : obind (Raised e) k = Raised e.
Proof. reflexivity. Qed.

Lemma obind_returned_inv {A B} (o : outcome A) (k : A -> outcome B) (b : B) :
  obind o k = Returned b -> exists a, o = Returned a /\ k a = Returned b.
Proof. destruct o as [a|e]; simpl; [eauto | discriminate]. Qed.

Lemma http_gets_app (t1 t2 : list event) : http_gets (t1 ++ t2) = http_gets t1 ++ http_gets t2.
Proof.
  induction t1 as [|e t1 IH]; simpl; [reflexivity|].
  destruct e; simpl; rewrite ?IH; reflexivity.
Qed.

(** ** Key-path descent *)

Section Descent.

Variable reformat_json_list : list pyval -> outcome pyval.

Abbreviation key_step := (key_step reformat_json_list).
Abbreviation descend := (descend reformat_json_list).
Abbreviation walk := (walk reformat_json_list).

Lemma walk_raised (e : exn) (keys : list string) : walk (Raised e) keys = Raised e.
Proof. induction keys as [|k keys IH]; simpl; auto. Qed.

Lemma walk_app (acc : outcome pyval) (pre post : list string) :
  walk acc (pre ++ post) = walk (walk acc pre) post.
Proof. unfold Query.walk. apply foldl_app. Qed.

Lemma descend_indices (pre keys : list string) (acc : outcome pyval) :
  foldl (fun acc i => obind acc (fun r => descend_step reformat_json_list (pre ++ keys) r i))
        acc (seq (length pre) (length keys))
  = walk acc keys.
Proof.
  revert pre acc. induction keys as [|k keys IH]; intros pre acc; [reflexivity|].
  cbn [length seq foldl Query.walk].
  replace (pre ++ k :: keys) with ((pre ++ [k]) ++ keys) by (rewrite <- app_assoc; reflexivity).
  specialize (IH (pre ++ [k])). rewrite length_app in IH. simpl in IH.
  rewrite Nat.add_1_r in IH. rewrite IH. unfold Query.walk. f_equal.
  destruct acc as [r|e]; simpl; [|reflexivity].
  unfold descend_step. rewrite <- app_assoc. simpl.
  rewrite list_lookup_middle by reflexivity. reflexivity.
Qed.

(** The loop over indices visits the keys in order. *)
Lemma descend_walk (keys : list string) (raw : pyval) :
  descend keys raw = walk (Returned raw) keys.
Proof. unfold Query.descend. apply (descend_indices [] keys). Qed.

Lemma descend_nil (raw : pyval) : descend [] raw = Returned raw.
Proof. reflexivity. Qed.

Lemma descend_cons (k : string) (keys : list string) (raw : pyval) :
  descend (k :: keys) raw = obind (key_step raw k) (descend keys).
Proof.
  rewrite descend_walk. cbn [Query.walk foldl obind].
  destruct (key_step raw k) as [r|e]; simpl.
  - rewrite descend_walk. reflexivity.
  - apply walk_raised.
Qed.

Lemma descend_app (pre post : list string) (raw : pyval) :
  descend (pre ++ post) raw = obind (descend pre raw) (descend post).
Proof.
  rewrite !descend_walk, walk_app.
  destruct (walk (Returned raw) pre) as [r|e]; simpl.
  - rewrite descend_walk. reflexivity.
  - apply walk_raised.
Qed.

End Descent.

(** ** The facade *)

Section FacadeFacts.

Variable session : Type.
Variable OAuth2 : string -> gmap string pyval -> outcome session * gmap string pyval.
Variable token_is_valid : session -> bool.
Variable refresh_access_token :
  session -> gmap string pyval -> outcome session * gmap string pyval.
Variable session_get :
  session -> list event -> string -> list (string * string) -> outcome pyval.
Variable reformat_json_list : list pyval -> outcome pyval.
Variable YahooFantasyObject : list (string * string).

Abbreviation init := (init session OAuth2 token_is_valid refresh_access_token).
Abbreviation complete_handshake :=
  (complete_handshake session OAuth2 token_is_valid refresh_access_token).
Abbreviation query := (query session session_get reformat_json_list YahooFantasyObject).
Abbreviation get_league_key :=
  (get_league_key session session_get reformat_json_list YahooFantasyObject).
Abbreviation descend := (descend reformat_json_list).
Abbreviation unpack := (Unpacker.unpack YahooFantasyObject).
Abbreviation record := (record YahooFantasyObject).
Abbreviation query_events := (query_events YahooFantasyObject).

(** What a query does when the facade is not offline and owns a session. *)
Lemma query_online (self : facade session) (s : session) (url : string)
    (keys : list string) (ty : option string) (w : world) :
  offline session self = false ->
  oauth session self = Some s ->
  query self url keys ty w =
    match session_get s (trace w ++ [EvHttpGet url json_format]) url json_format with
    | Raised e => (Raised e, World (files w) (trace w ++ [EvHttpGet url json_format]))
    | Returned doc =>
        match py_get doc "fantasy_content" with
        | Raised e => (Raised e, World (files w) (trace w ++ take 2 (query_events url keys ty doc PyNone PyNone)))
        | Returned payload =>
            match descend keys payload with
            | Raised e =>
                (Raised e, World (files w) (trace w ++ take 3 (query_events url keys ty doc payload PyNone)))
            | Returned raw =>
                (Returned (record ty url raw),
                 World (files w) (trace w ++ query_events url keys ty doc payload raw))
            end
        end
    end.
Proof.
  intros Hoff Hs. unfold Query.query, self_oauth. rewrite Hoff, Hs.
  unfold http_get, log, emit, lift, bind, ret, json_format.
  cbn [negb files trace].
  destruct (session_get s (trace w ++ [EvHttpGet url [("format", "json")]]) url
              [("format", "json")]) as [doc|e]; [|reflexivity].
  destruct (py_get doc "fantasy_content") as [payload|e];
    cbn [take Query.query_events].
  2:{ rewrite <- app_assoc. reflexivity. }
  destruct (descend keys payload) as [raw|e].
  - rewrite <- !app_assoc. reflexivity.
  - rewrite <- !app_assoc. reflexivity.
Qed.

(** C10. Constructing the facade with [offline=True] touches neither the
    files nor the OAuth library: the world is returned as it was, with no
    event added.  The facade holds the league id, the game id, a league
    key that is [None] and the offline flag; the credential fields, the
    access token and the OAuth session are not set. *)
Theorem init_offline_sets_only_identifiers (auth_dir : string) (lid : ident)
    (gid : option ident) (w : world) :
  exists self : facade session,
    init auth_dir lid gid true w = (Returned self, w)
    /\ league_id session self = lid
    /\ game_id session self = gid
    /\ league_key session self = None
    /\ offline session self = true
    /\ _yahoo_consumer_key session self = None
    /\ _yahoo_consumer_secret session self = None
    /\ _yahoo_access_token session self = None
    /\ oauth session self = None.
Proof.
  exists (Facade session lid gid None true None None None None).
  unfold Query.init. cbn [negb]. unfold ret.
  repeat split; reflexivity.
Qed.

(** C1, as the code has it. A query on an offline facade attempts no
    network access: it logs one error and returns [None] to the caller,
    without raising. *)
Theorem query_offline_logs_and_returns_none (self : facade session) (url : string)
    (keys : list string) (ty : option string) (w : world) :
  offline session self = true ->
  query self url keys ty w
  = (Returned PyNone,
     World (files w)
           (trace w ++ [EvLog ERROR "CANNOT RUN YAHOO QUERY WHILE USING OFFLINE MODE!" []]))
  /\ http_gets (trace (query self url keys ty w).2) = http_gets (trace w).
Proof.
  intros Hoff. unfold Query.query. rewrite Hoff. cbn [negb].
  split; [reflexivity|].
  unfold log, emit, bind, ret. cbn [snd trace].
  rewrite http_gets_app. cbn [http_gets]. apply app_nil_r.
Qed.

(** C5. A query through a facade that is not offline, when it returns,
    returns a record of exactly three fields: ["data"] is the unpacked
    sub-document, wrapped in the response type when one is given and as
    it is otherwise; ["url"] is the request URL; ["raw"] is the
    sub-document reached by the key path, before unpacking. *)
Theorem query_returns_record (self : facade session) (url : string)
    (keys : list string) (ty : option string) (w : world) (v : pyval) :
  offline session self = false ->
  (query self url keys ty w).1 = Returned v ->
  exists (s : session) (doc payload raw : pyval),
    oauth session self = Some s
    /\ session_get s (trace w ++ [EvHttpGet url json_format]) url json_format = Returned doc
    /\ py_get doc "fantasy_content" = Returned payload
    /\ descend keys payload = Returned raw
    /\ v = PyDict [("data", match ty with
                            | Some cls => instantiate cls (unpack raw)
                            | None => unpack raw
                            end);
                   ("url", PyStr url);
                   ("raw", raw)].
Proof.
  intros Hoff Hv.
  destruct (oauth session self) as [s|] eqn:Hs.
  - rewrite (query_online self s url keys ty w Hoff Hs) in Hv.
    destruct (session_get s _ url json_format) as [doc|e] eqn:Hdoc; [|discriminate].
    destruct (py_get doc "fantasy_content") as [payload|e] eqn:Hp; [|discriminate].
    destruct (descend keys payload) as [raw|e] eqn:Hraw; [|discriminate].
    cbn [fst] in Hv. injection Hv as <-.
    exists s, doc, payload, raw. repeat split; auto.
  - unfold Query.query, self_oauth in Hv. rewrite Hoff, Hs in Hv. discriminate.
Qed.

(** What [__init__] leaves on a facade that is not offline. *)
Lemma init_online_inv (auth_dir : string) (lid : ident) (gid : option ident)
    (w w' : world) (self : facade session) :
  init auth_dir lid gid false w = (Returned self, w') ->
  offline session self = false
  /\ league_id session self = lid
  /\ game_id session self = gid
  /\ league_key session self = None
  /\ exists s : session, oauth session self = Some s.
Proof.
  unfold Query.init, bind, ret. cbn [negb]. intros H.
  destruct (load_credentials auth_dir w) as [[[[auth_info ck] cs]|e] w1]; [|discriminate].
  destruct (load_or_create_token _ auth_info w1) as [[doc|e] w2]; [|discriminate].
  destruct (complete_handshake _ doc w2) as [[[tok s]|e] w3]; [|discriminate].
  injection H as <- _. cbn. repeat split; eauto.
Qed.

(** C9, as the code has it. When a facade that is not offline is
    constructed and its credential file holds both consumer fields, the
    token file is read if it exists; otherwise the contents of the
    credential file are written to it; the handshake then goes on from
    the world so obtained.  And a query through the facade so constructed
    sends one GET, whose parameters are [format=json]. *)
Theorem bootstrap_token_file_and_json_format
    (auth_dir : string) (lid : ident) (gid : option ident) (w : world)
    (creds ck cs : pyval) :
  files w !! path_join auth_dir "private.json" = Some creds ->
  py_getitem creds "consumer_key" = Returned ck ->
  py_getitem creds "consumer_secret" = Returned cs ->
  let private_path := path_join auth_dir "private.json" in
  let token_path := path_join auth_dir "token.json" in
  let finish (auth_info : pyval) : M (facade session) :=
    (handshake <- complete_handshake token_path auth_info ;;
     ret (Facade session lid gid None false (Some ck) (Some cs) handshake.1
                 (Some handshake.2))) in
  init auth_dir lid gid false w
  = match files w !! token_path with
    | Some token =>
        finish token
          (World (files w)
                 (trace w ++ [EvOpenRead private_path; EvIsFile token_path;
                              EvOpenRead token_path]))
    | None =>
        finish creds
          (World (<[token_path := creds]> (files w))
                 (trace w ++ [EvOpenRead private_path; EvIsFile token_path;
                              EvOpenWrite token_path creds]))
    end
  /\ forall (self : facade session) (w' : world),
       init auth_dir lid gid false w = (Returned self, w') ->
       forall (url : string) (keys : list string) (ty : option string) (w2 : world),
       exists rest : list event,
         trace (query self url keys ty w2).2
         = trace w2 ++ EvHttpGet url [("format", "json")] :: rest
         /\ http_gets rest = [].
Proof.
  intros Hfile Hck Hcs private_path token_path finish. split.
  - unfold Query.init, load_credentials, load_or_create_token, json_load_file,
      json_dump_file, isfile, emit, lift, bind, ret.
    cbn [negb files trace]. subst private_path.
    rewrite Hfile, Hck, Hcs. fold token_path.
    destruct (files w !! token_path) as [token|] eqn:Htok.
    + rewrite bool_decide_eq_true_2 by eauto. cbn [files trace]. rewrite Htok.
      unfold finish, bind, ret. rewrite <- !app_assoc. cbn [app].
      destruct (complete_handshake token_path token _) as [o w'].
      destruct o as [[a s']|e]; reflexivity.
    + rewrite bool_decide_eq_false_2 by (apply eq_None_not_Some; exact Htok).
      cbn [files trace].
      unfold finish, bind, ret. rewrite <- !app_assoc. cbn [app].
      destruct (complete_handshake token_path creds _) as [o w'].
      destruct o as [[a s']|e]; reflexivity.
  - intros self w' Hinit url keys ty w2.
    destruct (init_online_inv _ _ _ _ _ _ Hinit) as (Hoff & _ & _ & _ & s & Hs).
    rewrite (query_online self s url keys ty w2 Hoff Hs).
    destruct (session_get s _ url json_format) as [doc|e].
    2:{ exists []. split; reflexivity. }
    destruct (py_get doc "fantasy_content") as [payload|e].
    2:{ eexists. split; [reflexivity|reflexivity]. }
    destruct (descend keys payload) as [raw|e].
    + eexists. split; reflexivity.
    + eexists. split; reflexivity.
Qed.

(** C2, as the code has it. When the descent stands on a mapping that
    lacks the current key, the lookup gives [None] and nothing fails at
    that step: if the key is the last of the path the query returns a
    record whose raw field is [None]; if keys remain, the query fails at
    the next step with an attribute error.  When the descent stands on a
    sequence whose normal form is a mapping that lacks the key, the
    query fails with a key error. *)
Theorem query_absent_key (self : facade session) (s : session) (url : string)
    (pre : list string) (k : string) (post : list string) (ty : option string)
    (w : world) (doc payload cur : pyval) :
  offline session self = false ->
  oauth session self = Some s ->
  session_get s (trace w ++ [EvHttpGet url json_format]) url json_format = Returned doc ->
  py_get doc "fantasy_content" = Returned payload ->
  descend pre payload = Returned cur ->
  (forall d : list (string * pyval),
      cur = PyDict d -> dict_lookup k d = None ->
      (query self url (pre ++ k :: post) ty w).1
      = match post with
        | [] => Returned (PyDict [("data", match ty with
                                           | Some cls => instantiate cls PyNone
                                           | None => PyNone
                                           end);
                                  ("url", PyStr url);
                                  ("raw", PyNone)])
        | _ :: _ => Raised (AttributeError "get")
        end)
  /\ (forall (l : list pyval) (d : list (string * pyval)),
      cur = PyList l -> reformat_json_list l = Returned (PyDict d) ->
      dict_lookup k d = None ->
      (query self url (pre ++ k :: post) ty w).1 = Raised (KeyError k)).
Proof.
  intros Hoff Hs Hdoc Hp Hcur.
  assert (Hq : forall o,
             descend (pre ++ k :: post) payload = o ->
             (query self url (pre ++ k :: post) ty w).1
             = match o with
               | Returned raw => Returned (record ty url raw)
               | Raised e => Raised e
               end).
  { intros o Ho. rewrite (query_online self s url _ ty w Hoff Hs), Hdoc, Hp, Ho.
    destruct o; reflexivity. }
  split.
  - intros d -> Hk. rewrite (Hq _ eq_refl).
    rewrite descend_app, Hcur. cbn [obind]. rewrite descend_cons.
    cbn [key_step py_get]. rewrite Hk. cbn [default obind].
    destruct post as [|k' post].
    + rewrite descend_nil. destruct ty; reflexivity.
    + rewrite descend_cons. reflexivity.
  - intros l d -> Hl Hk. rewrite (Hq _ eq_refl).
    rewrite descend_app, Hcur. cbn [obind]. rewrite descend_cons.
    cbn [key_step]. rewrite Hl. cbn [obind py_getitem]. rewrite Hk. reflexivity.
Qed.

(** A query through a session sends exactly one GET. *)
Lemma query_http_gets (self : facade session) (s : session) (url : string)
    (keys : list string) (ty : option string) (w : world) :
  offline session self = false ->
  oauth session self = Some s ->
  http_gets (trace (query self url keys ty w).2)
  = http_gets (trace w) ++ [(url, json_format)].
Proof.
  intros Hoff Hs. rewrite (query_online self s url keys ty w Hoff Hs).
  destruct (session_get s _ url json_format) as [doc|e].
  2:{ cbn [snd trace]. rewrite http_gets_app. reflexivity. }
  destruct (py_get doc "fantasy_content") as [payload|e].
  2:{ cbn [snd trace]. rewrite http_gets_app. reflexivity. }
  destruct (descend keys payload) as [raw|e];
    cbn [snd trace]; rewrite http_gets_app; reflexivity.
Qed.

(** The league key is the game key of the fetched game, then [".l."],
    then the league id. *)
Lemma league_key_of_concat (self : facade session) (result v : pyval) :
  league_key_of session self result = Returned v ->
  exists (data : pyval) (game_key lid : string),
    py_get result "data" = Returned data
    /\ py_getattr data "game_key" = Returned (PyStr game_key)
    /\ league_id session self = IdStr lid
    /\ v = PyStr ((game_key +:+ ".l.") +:+ lid).
Proof.
  unfold league_key_of. intros H.
  apply obind_returned_inv in H as [data [Hdata H]].
  apply obind_returned_inv in H as [gk [Hgk H]].
  apply obind_returned_inv in H as [prefix [Hprefix H]].
  destruct gk as [| | |gk| | |]; try discriminate Hprefix.
  injection Hprefix as <-.
  destruct (league_id session self) as [lid|z] eqn:Hlid; try discriminate H.
  injection H as <-.
  exists data, gk, lid. repeat split; auto.
Qed.

(** Every call of [get_league_key] on a facade as [__init__] leaves it
    (no league key stored) sends a GET of its own. *)
Lemma get_league_key_http_gets (self : facade session) (s : session) (w : world) :
  offline session self = false ->
  oauth session self = Some s ->
  league_key session self = None ->
  exists url : string,
    http_gets (trace (get_league_key self w).2)
    = http_gets (trace w) ++ [(url, json_format)].
Proof.
  intros Hoff Hs Hkey. unfold Query.get_league_key. rewrite Hkey.
  cbn [str_truthy negb].
  assert (Hq : forall url keys ty w0 (k : pyval -> M pyval),
             (forall r w1, trace (k r w1).2 = trace w1) ->
             http_gets (trace ((r <- query self url keys ty ;; k r) w0).2)
             = http_gets (trace w0) ++ [(url, json_format)]).
  { intros url keys ty w0 k Hk. unfold bind.
    pose proof (query_http_gets self s url keys ty w0 Hoff Hs) as Hg.
    destruct (query self url keys ty w0) as [[r|e] w1]; cbn [snd] in *.
    - rewrite Hk. exact Hg.
    - exact Hg. }
  assert (Hlift : forall r w1, trace (lift (league_key_of session self r) w1).2 = trace w1)
    by reflexivity.
  destruct (game_id session self) as [gid|].
  - destruct (ident_truthy gid).
    + eexists. unfold get_nfl_fantasy_game. apply Hq, Hlift.
    + eexists. unfold get_current_nfl_fantasy_game, log, emit.
      unfold bind at 1. cbn [fst snd]. rewrite Hq by apply Hlift.
      cbn [trace]. rewrite http_gets_app. cbn [http_gets]. rewrite app_nil_r. reflexivity.
  - eexists. unfold get_current_nfl_fantasy_game, log, emit.
    unfold bind at 1. cbn [fst snd]. rewrite Hq by apply Hlift.
    cbn [trace]. rewrite http_gets_app. cbn [http_gets]. rewrite app_nil_r. reflexivity.
Qed.

End FacadeFacts.

(** X21. At every step of the descent, a current value that is a list is
    handed to [reformat_json_list], whatever its elements, and the key is
    then subscripted in what that returns; any other current value is
    asked for the key with [.get], which for a mapping gives the value
    stored under the key ([None] when there is none).  What
    [reformat_json_list] returns is not part of the statement. *)
Theorem descent_step_by_shape (reformat_json_list : list pyval -> outcome pyval)
    (pre : list string) (k : string) (post : list string) (raw cur : pyval) :
  descend reformat_json_list pre raw = Returned cur ->
  descend reformat_json_list (pre ++ k :: post) raw
  = obind (match cur with
           | PyList l => obind (reformat_json_list l) (fun normal => py_getitem normal k)
           | _ => py_get cur k
           end)
          (descend reformat_json_list post)
  /\ (forall d : list (string * pyval),
        cur = PyDict d ->
        descend reformat_json_list (pre ++ k :: post) raw
        = descend reformat_json_list post (default PyNone (dict_lookup k d))).
Proof.
  intros Hcur.
  assert (Hstep : descend reformat_json_list (pre ++ k :: post) raw
                  = obind (key_step reformat_json_list cur k)
                          (descend reformat_json_list post)).
  { rewrite descend_app, Hcur. cbn [obind]. apply descend_cons. }
  split.
  - rewrite Hstep. destruct cur; reflexivity.
  - intros d ->. rewrite Hstep. reflexivity.
Qed.

Lemma descent_step_by_shape_witness :
  Sample.descend ["users"; "0"; "user"]
    (PyDict [("users", PyList [PyDict [("0", PyDict [("user", PyStr "me")])]])])
  = obind (obind (Sample.reformat_json_list
                    [PyDict [("0", PyDict [("user", PyStr "me")])]])
                 (fun normal => py_getitem normal "0"))
          (Sample.descend ["user"]).
Proof.
  exact (proj1 (descent_step_by_shape Sample.reformat_json_list
                  ["users"] "0" ["user"]
                  (PyDict [("users", PyList [PyDict [("0", PyDict [("user", PyStr "me")])]])])
                  (PyList [PyDict [("0", PyDict [("user", PyStr "me")])]])
                  eq_refl)).
Defined.

Lemma init_offline_example :
  (Sample.init "auth" (IdStr "12345") (Some (IdInt 390)) true Sample.used_world).1
  = Returned Sample.offline_facade.
Proof. reflexivity. Qed.

(** C1 as stated fails: on an offline facade the call returns normally. *)
Lemma query_offline_raises_nothing :
  offline unit Sample.offline_facade = true
  /\ (Sample.query Sample.offline_facade "https://fantasysports.yahooapis.com/fantasy/v2/game/nfl"
                   ["game"] (Some "Game") Sample.empty_world).1 = Returned PyNone
  /\ ~ exists e : exn,
         (Sample.query Sample.offline_facade
                       "https://fantasysports.yahooapis.com/fantasy/v2/game/nfl"
                       ["game"] (Some "Game") Sample.empty_world).1 = Raised e.
Proof.
  split; [reflexivity|]. split; [reflexivity|].
  intros [e He]. discriminate He.
Qed.

Lemma query_offline_logs_and_returns_none_witness :
  Sample.query Sample.offline_facade "u" ["game"] None Sample.empty_world
  = (Returned PyNone,
     World ∅ [EvLog ERROR "CANNOT RUN YAHOO QUERY WHILE USING OFFLINE MODE!" []]).
Proof.
  exact (proj1 (query_offline_logs_and_returns_none unit Sample.session_get
                  Sample.reformat_json_list Sample.models
                  Sample.offline_facade "u" ["game"] None Sample.empty_world eq_refl)).
Defined.

Lemma query_returns_record_witness :
  exists (s : unit) (doc payload raw : pyval),
    oauth unit Sample.online = Some s
    /\ Sample.session_get s [EvHttpGet "u" json_format] "u" json_format = Returned doc
    /\ py_get doc "fantasy_content" = Returned payload
    /\ Sample.descend ["game"] payload = Returned raw
    /\ PyDict [("data", PyObj "Game" (PyDict [("game_key", PyStr "390"); ("name", PyStr "nfl")]));
               ("url", PyStr "u");
               ("raw", PyDict [("game_key", PyStr "390"); ("name", PyStr "nfl")])]
       = PyDict [("data", PyObj "Game" (Unpacker.unpack Sample.models raw));
                 ("url", PyStr "u");
                 ("raw", raw)].
Proof.
  exact (query_returns_record unit Sample.session_get Sample.reformat_json_list
           Sample.models Sample.online "u" ["game"] (Some "Game") Sample.empty_world
           _ eq_refl eq_refl).
Defined.

(** C9 as stated fails: an offline facade is constructed without the token
    file being read, although the file exists. *)
Lemma init_offline_leaves_token_unread :
  is_Some (files Sample.used_world !! path_join "auth" "token.json")
  /\ (Sample.init "auth" (IdStr "12345") (Some (IdInt 390)) true Sample.used_world).1
     = Returned Sample.offline_facade
  /\ EvOpenRead (path_join "auth" "token.json")
     ∉ trace (Sample.init "auth" (IdStr "12345") (Some (IdInt 390)) true
                          Sample.used_world).2.
Proof.
  split; [vm_compute; eauto|]. split; [reflexivity|].
  cbn. apply not_elem_of_nil.
Qed.

Lemma bootstrap_token_file_and_json_format_witness :
  (Sample.init "auth" (IdStr "12345") (Some (IdInt 390)) false Sample.fresh_world).1
  = Returned Sample.online
  /\ http_gets (trace (Sample.query Sample.online "u" ["game"] None Sample.empty_world).2)
     = [("u", [("format", "json")])].
Proof.
  destruct (bootstrap_token_file_and_json_format unit Sample.OAuth2 Sample.token_is_valid
              Sample.refresh_access_token Sample.session_get Sample.reformat_json_list
              Sample.models
              "auth" (IdStr "12345") (Some (IdInt 390)) Sample.fresh_world
              Sample.credentials (PyStr "key") (PyStr "secret")
              eq_refl eq_refl eq_refl) as [Hinit Hquery].
  split.
  - unfold Sample.init. rewrite Hinit. vm_compute. reflexivity.
  - destruct (Hquery Sample.online
                (Sample.init "auth" (IdStr "12345") (Some (IdInt 390)) false
                             Sample.fresh_world).2
                ltac:(vm_compute; reflexivity)
                "u" ["game"] None Sample.empty_world) as [rest [Htrace Hrest]].
    unfold Sample.query. rewrite Htrace. cbn [Sample.empty_world trace app http_gets].
    rewrite Hrest. reflexivity.
Defined.

(** C2 as stated fails: the last key of the path is absent from the mapping
    the descent stands on, and the query returns a record. *)
Lemma query_absent_last_key_returns :
  Sample.descend ["league"]
    (PyDict [("game", PyDict [("game_key", PyStr "390"); ("name", PyStr "nfl")]);
             ("league", PyDict [])])
  = Returned (PyDict [])
  /\ dict_lookup "standings" [] = None
  /\ (Sample.query Sample.online "u" ["league"; "standings"] None Sample.empty_world).1
     = Returned (PyDict [("data", PyNone); ("url", PyStr "u"); ("raw", PyNone)])
  /\ ~ exists e : exn,
         (Sample.query Sample.online "u" ["league"; "standings"] None
                       Sample.empty_world).1 = Raised e.
Proof.
  split; [reflexivity|]. split; [reflexivity|]. split; [reflexivity|].
  intros [e He]. discriminate He.
Qed.

Lemma query_absent_key_witness :
  (Sample.query Sample.online "u" ["league"; "standings"; "0"] None Sample.empty_world).1
  = Raised (AttributeError "get").
Proof.
  exact (proj1 (query_absent_key unit Sample.session_get Sample.reformat_json_list
                  Sample.models Sample.online tt "u" ["league"] "standings" ["0"] None
                  Sample.empty_world Sample.game_document
                  (PyDict [("game", PyDict [("game_key", PyStr "390"); ("name", PyStr "nfl")]);
                           ("league", PyDict [])])
                  (PyDict [])
                  eq_refl eq_refl eq_refl eq_refl eq_refl)
               [] eq_refl eq_refl).
Defined.

(** C3. The league key is the fetched game key, [".l."] and the league id,
    but it is not kept: on the facade that [__init__] builds, the league
    key is still [None] after a call, and a second call of
    [get_league_key] fetches the game again. *)
Theorem get_league_key_fetches_again :
  let built :=
    Sample.init "auth" (IdStr "12345") (Some (IdInt 390)) false Sample.fresh_world in
  let first := Sample.get_league_key Sample.online built.2 in
  let second := Sample.get_league_key Sample.online first.2 in
  let game_url := "https://fantasysports.yahooapis.com/fantasy/v2/game/390" in
  built.1 = Returned Sample.online
  /\ http_gets (trace built.2) = []
  /\ first.1 = Returned (PyStr "390.l.12345")
  /\ http_gets (trace first.2) = [(game_url, json_format)]
  /\ league_key unit Sample.online = None
  /\ second.1 = Returned (PyStr "390.l.12345")
  /\ http_gets (trace second.2) = [(game_url, json_format); (game_url, json_format)].
Proof. vm_compute. repeat split; reflexivity. Qed.

(** ** The unpacker *)

Module UnpackerFacts.
Import Unpacker.

Lemma is_count_true (k : string) : is_count k = true <-> k = "count".
Proof. unfold is_count. apply String.eqb_eq. Qed.

Lemma is_count_false (k : string) : is_count k = false <-> k <> "count".
Proof. unfold is_count. apply String.eqb_neq. Qed.

Lemma insert_by_key_perm (e : nat * pyval) (l : list (nat * pyval)) :
  insert_by_key e l ≡ₚ e :: l.
Proof.
  induction l as [|a l IH]; simpl; [reflexivity|].
  destruct (e.1 <=? a.1)%nat; [reflexivity|].
  rewrite IH. apply Permutation_swap.
Qed.

Lemma sort_by_key_perm (l : list (nat * pyval)) : sort_by_key l ≡ₚ l.
Proof.
  induction l as [|a l IH]; simpl; [reflexivity|].
  rewrite insert_by_key_perm, IH. reflexivity.
Qed.

Lemma insert_by_key_sorted (e : nat * pyval) (l : list (nat * pyval)) :
  Sorted le (map fst l) -> Sorted le (map fst (insert_by_key e l)).
Proof.
  induction l as [|a l IH]; simpl; intros Hs.
  - repeat constructor.
  - destruct (Nat.leb_spec e.1 a.1) as [Hle|Hlt]; simpl.
    + constructor; [exact Hs|]. constructor. exact Hle.
    + inversion Hs as [|? ? Hl Hhd]; subst.
      constructor; [apply IH; exact Hl|].
      destruct l as [|b l]; simpl.
      * constructor. lia.
      * destruct (e.1 <=? b.1)%nat; simpl; constructor; [lia|].
        inversion Hhd; assumption.
Qed.

Lemma sort_by_key_sorted (l : list (nat * pyval)) : Sorted le (map fst (sort_by_key l)).
Proof.
  induction l as [|a l IH]; simpl; [constructor|].
  apply insert_by_key_sorted, IH.
Qed.

Lemma seq_sorted (a n : nat) : Sorted le (seq a n).
Proof.
  revert a. induction n as [|n IH]; intros a; simpl; constructor; [apply IH|].
  destruct n; simpl; constructor. lia.
Qed.

(** Sorting keys that are a rearrangement of [0 .. n-1] gives [0 .. n-1]. *)
Lemma sorted_keys_seq (es : list (nat * pyval)) (n : nat) :
  map fst es ≡ₚ seq 0 n -> map fst (sort_by_key es) = seq 0 n.
Proof.
  intros Hp. apply (Sorted_unique le).
  - apply sort_by_key_sorted.
  - apply seq_sorted.
  - rewrite sort_by_key_perm. exact Hp.
Qed.

Lemma parse_entries_keys (d : list (string * pyval)) (es : list (nat * pyval)) :
  parse_entries d = Some es -> map fst es = int_keys d.
Proof.
  revert es. induction d as [|[k v] d IH]; simpl; intros es H.
  - injection H as <-. reflexivity.
  - destruct (is_count k); [auto|].
    destruct (parse_index k) as [i|]; [|discriminate].
    destruct (parse_entries d) as [r|]; [|discriminate].
    injection H as <-. simpl. f_equal. apply IH. reflexivity.
Qed.

Lemma parse_entries_total (d : list (string * pyval)) :
  (forall k, k ∈ dict_keys d -> k <> "count" -> is_Some (parse_index k)) ->
  exists es, parse_entries d = Some es
             /\ forall k v i, (k, v) ∈ d -> k <> "count" -> parse_index k = Some i ->
                              (i, v) ∈ es.
Proof.
  induction d as [|[k v] d IH]; simpl; intros Hall.
  - exists []. split; [reflexivity|]. intros k v i Hin. inversion Hin.
  - destruct IH as [es [Hes Hin]].
    { intros k' Hk'. apply Hall. right. exact Hk'. }
    destruct (is_count k) eqn:Hc.
    + exists es. split; [exact Hes|].
      intros k' v' i Hin' Hne Hp. apply elem_of_cons in Hin' as [Heq|Hin'].
      * injection Heq as -> ->. apply is_count_true in Hc. contradiction.
      * eapply Hin; eauto.
    + destruct (Hall k) as [i Hi]; [left|apply is_count_false; exact Hc|].
      rewrite Hi, Hes. exists ((i, v) :: es). split; [reflexivity|].
      intros k' v' i' Hin' Hne Hp. apply elem_of_cons in Hin' as [Heq|Hin'].
      * injection Heq as -> ->. rewrite Hi in Hp. injection Hp as <-. left.
      * right. eapply Hin; eauto.
Qed.

Section Values.

Variable f : pyval -> pyval.

Abbreviation on_values d := (map (fun kv : string * pyval => (kv.1, f kv.2)) d).

Lemma on_values_keys (d : list (string * pyval)) : dict_keys (on_values d) = dict_keys d.
Proof. unfold dict_keys. rewrite map_map. reflexivity. Qed.

Lemma on_values_int_keys (d : list (string * pyval)) : int_keys (on_values d) = int_keys d.
Proof.
  induction d as [|[k v] d IH]; simpl; [reflexivity|].
  destruct (is_count k); [exact IH|].
  destruct (parse_index k); [f_equal|]; exact IH.
Qed.

Lemma on_values_elem (d : list (string * pyval)) (k : string) (v : pyval) :
  (k, v) ∈ d -> (k, f v) ∈ on_values d.
Proof.
  intros Hin.
  apply (list_elem_of_fmap_2 (fun kv : string * pyval => (kv.1, f kv.2)) d (k, v) Hin).
Qed.

End Values.

Lemma unpack_dict (ns : list (string * string)) (d : list (string * pyval)) :
  unpack ns (PyDict d)
  = match normalize (map (fun kv => (kv.1, unpack ns kv.2)) d) with
    | Some vs => PyList vs
    | None =>
        PyDict (map (fun kv => (kv.1, promote ns kv.1 kv.2))
                    (map (fun kv => (kv.1, unpack ns kv.2)) d))
    end.
Proof. reflexivity. Qed.

Lemma count_key_found (d : list (string * pyval)) :
  "count" ∈ dict_keys d -> existsb is_count (dict_keys d) = true.
Proof.
  intros Hin. apply existsb_exists. exists "count".
  split; [apply list_elem_of_In; exact Hin | reflexivity].
Qed.

(** C6. A mapping that carries the ["count"] key, whose other keys all
    parse as non-negative integers, the integer keys being exactly
    [0 .. n-1], is unpacked into a sequence of length [n]: ["count"] is
    dropped and position [i] holds the unpacked value that was stored
    under the key for [i].  So [{"0": "x", "1": "y", "count": 2}] gives
    [["x", "y"]]. *)
Theorem unpack_list_as_map (ns : list (string * string)) (d : list (string * pyval))
    (n : nat) :
  "count" ∈ dict_keys d ->
  (forall k, k ∈ dict_keys d -> k <> "count" -> is_Some (parse_index k)) ->
  int_keys d ≡ₚ seq 0 n ->
  (exists vs : list pyval,
      unpack ns (PyDict d) = PyList vs
      /\ length vs = n
      /\ forall (k : string) (v : pyval) (i : nat),
           (k, v) ∈ d -> k <> "count" -> parse_index k = Some i ->
           vs !! i = Some (unpack ns v))
  /\ unpack ns (PyDict [("0", PyStr "x"); ("1", PyStr "y"); ("count", PyInt 2)])
     = PyList [PyStr "x"; PyStr "y"].
Proof.
  intros Hcount Hall Hperm. split; [|reflexivity].
  set (d' := map (fun kv : string * pyval => (kv.1, unpack ns kv.2)) d).
  destruct (parse_entries_total d') as [es [Hes Hin]].
  { unfold d'. rewrite on_values_keys. exact Hall. }
  assert (Hkeys : map fst es ≡ₚ seq 0 n).
  { rewrite (parse_entries_keys d' es Hes). unfold d'.
    rewrite on_values_int_keys. exact Hperm. }
  assert (Hlen : length es = n).
  { rewrite <- (length_map fst es), Hkeys. apply length_seq. }
  pose proof (sorted_keys_seq es n Hkeys) as Hsorted.
  exists (map snd (sort_by_key es)). split; [|split].
  - rewrite unpack_dict. fold d'. unfold normalize.
    rewrite count_key_found by (unfold d'; rewrite on_values_keys; exact Hcount).
    rewrite Hes. cbv zeta. rewrite Hlen, Hsorted.
    unfold nat_list_eqb. rewrite bool_decide_eq_true_2 by reflexivity. reflexivity.
  - rewrite length_map, sort_by_key_perm. exact Hlen.
  - intros k v i Hkv Hne Hi.
    assert (Hmem : (i, unpack ns v) ∈ sort_by_key es).
    { rewrite sort_by_key_perm. apply (Hin k); [|exact Hne|exact Hi].
      unfold d'. apply (on_values_elem (unpack ns)). exact Hkv. }
    apply list_elem_of_lookup in Hmem as [j Hj].
    assert (Hfst : map fst (sort_by_key es) !! j = Some i).
    { rewrite list_lookup_fmap, Hj. reflexivity. }
    rewrite Hsorted in Hfst. apply lookup_seq in Hfst as [Heq _]. simpl in Heq. subst j.
    rewrite list_lookup_fmap, Hj. reflexivity.
Qed.

(** C7. A mapping whose integer-like keys are not exactly [0 .. n-1]
    (a gap, or no key for 0) is unpacked into a mapping: same keys, same
    order, each value unpacked (and promoted when its key names a
    model).  The unpacker is a total function, so nothing is raised.  So
    [{"1": "x", "count": 1}] stays as it is. *)
Theorem unpack_malformed_stays_mapping (ns : list (string * string))
    (d : list (string * pyval)) :
  ~ int_keys d ≡ₚ seq 0 (length (int_keys d)) ->
  (exists d' : list (string * pyval),
      unpack ns (PyDict d) = PyDict d'
      /\ dict_keys d' = dict_keys d
      /\ forall (j : nat) (k : string) (v : pyval),
           d !! j = Some (k, v) -> d' !! j = Some (k, promote ns k (unpack ns v)))
  /\ unpack ns (PyDict [("1", PyStr "x"); ("count", PyInt 1)])
     = PyDict [("1", PyStr "x"); ("count", PyInt 1)].
Proof.
  intros Hbad. split; [|reflexivity].
  exists (map (fun kv : string * pyval => (kv.1, promote ns kv.1 (unpack ns kv.2))) d).
  split; [|split].
  - rewrite unpack_dict, map_map. cbn [fst snd].
    set (d' := map (fun kv : string * pyval => (kv.1, unpack ns kv.2)) d).
    assert (Hnone : normalize d' = None); [|rewrite Hnone; reflexivity].
    unfold normalize. destruct (existsb is_count (dict_keys d')); [|reflexivity].
    destruct (parse_entries d') as [es|] eqn:Hes; [|reflexivity].
    cbv zeta. unfold nat_list_eqb. case_bool_decide as Hseq; [|reflexivity].
    exfalso. apply Hbad.
    pose proof (parse_entries_keys d' es Hes) as Hk.
    unfold d' in Hk. rewrite on_values_int_keys in Hk.
    rewrite <- Hk, length_map, <- Hseq, sort_by_key_perm. reflexivity.
  - unfold dict_keys. rewrite map_map. reflexivity.
  - intros j k v Hj. rewrite list_lookup_fmap, Hj. reflexivity.
Qed.

(** C8. Scalars (null, booleans, numbers, strings) are returned
    unchanged, and a sequence is unpacked into a sequence of the same
    length whose element at each position is the unpacking of the
    element of the input at that position. *)
Theorem unpack_scalars_and_sequences (ns : list (string * string)) :
  unpack ns PyNone = PyNone
  /\ (forall b : bool, unpack ns (PyBool b) = PyBool b)
  /\ (forall z : Z, unpack ns (PyInt z) = PyInt z)
  /\ (forall s : string, unpack ns (PyStr s) = PyStr s)
  /\ (forall l : list pyval,
        exists l' : list pyval,
          unpack ns (PyList l) = PyList l'
          /\ length l' = length l
          /\ forall i : nat, l' !! i = unpack ns <$> l !! i).
Proof.
  repeat split; try reflexivity.
  intros l. exists (map (unpack ns) l). split; [reflexivity|]. split.
  - apply length_map.
  - intros i. apply list_lookup_fmap.
Qed.

End UnpackerFacts.

Lemma unpack_list_as_map_witness :
  exists vs : list pyval,
    Unpacker.unpack Sample.models
      (PyDict [("1", PyDict [("1", PyStr "b"); ("0", PyStr "a"); ("count", PyInt 2)]);
               ("count", PyInt 2);
               ("0", PyDict [("game", PyDict [("game_key", PyStr "390")])])])
    = PyList vs
    /\ length vs = 2.
Proof.
  destruct (proj1 (UnpackerFacts.unpack_list_as_map Sample.models
              [("1", PyDict [("1", PyStr "b"); ("0", PyStr "a"); ("count", PyInt 2)]);
               ("count", PyInt 2);
               ("0", PyDict [("game", PyDict [("game_key", PyStr "390")])])]
              2
              ltac:(vm_compute; set_solver)
              ltac:(intros k Hk Hne; vm_compute in Hk;
                    repeat (apply elem_of_cons in Hk as [->|Hk]);
                    [vm_compute; eauto | contradiction | vm_compute; eauto
                    | inversion Hk])
              ltac:(vm_compute; apply Permutation_swap)))
    as [vs [Hvs [Hlen _]]].
  exists vs. split; assumption.
Defined.

Lemma unpack_malformed_stays_mapping_witness :
  exists d' : list (string * pyval),
    Unpacker.unpack Sample.models
      (PyDict [("0", PyStr "x"); ("2", PyStr "z"); ("count", PyInt 2)])
    = PyDict d'
    /\ dict_keys d' = ["0"; "2"; "count"].
Proof.
  destruct (proj1 (UnpackerFacts.unpack_malformed_stays_mapping Sample.models
              [("0", PyStr "x"); ("2", PyStr "z"); ("count", PyInt 2)]
              ltac:(vm_compute; intros Hp;
                    apply Permutation_cons_inv in Hp;
                    apply Permutation_length_1 in Hp; discriminate Hp)))
    as [d' [Hd' [Hkeys _]]].
  exists d'. split; assumption.
Defined.

Example unpack_sequence_example :
  Unpacker.unpack Sample.models
    (PyList [PyDict [("a", PyInt 1)]; PyDict [("a", PyInt 2)]])
  = PyList [PyDict [("a", PyInt 1)]; PyDict [("a", PyInt 2)]].
Proof. reflexivity. Qed.

Example unpack_promotes_game :
  Unpacker.unpack Sample.models
    (PyDict [("game", PyDict [("game_key", PyStr "401"); ("name", PyStr "nfl")])])
  = PyDict [("game", PyObj "Game" (PyDict [("game_key", PyStr "401"); ("name", PyStr "nfl")]))].
Proof. reflexivity. Qed.

Example query_standings_example :
  (Query.query unit Sample.standings_get Sample.reformat_json_list Sample.models
     Sample.online "u" ["league"; "standings"] (Some "Standings") Sample.empty_world).1
  = Returned
      (PyDict [("data",
                PyObj "Standings"
                      (PyList [PyDict [("team_standings", PyDict [("rank", PyStr "1")])]]));
               ("url", PyStr "u");
               ("raw",
                PyDict [("0", PyDict [("team_standings", PyDict [("rank", PyStr "1")])]);
                        ("count", PyInt 1)])]).
Proof. reflexivity. Qed.

(** * Further properties of the facade *)

(** ** Construction *)

Lemma append_inj_r (p a b : string) : p +:+ a = p +:+ b -> a = b.
Proof.
  induction p as [|c p IH]; simpl; intros H; [exact H|].
  injection H as H. apply IH, H.
Qed.

(** The two files of the authentication directory never coincide. *)
Lemma private_path_not_token_path (auth_dir : string) :
  path_join auth_dir "private.json" <> path_join auth_dir "token.json".
Proof.
  unfold path_join.
  destruct (String.eqb auth_dir EmptyString || ends_with_slash auth_dir); intros H.
  - apply append_inj_r in H. discriminate H.
  - apply append_inj_r in H. discriminate H.
Qed.

Lemma load_credentials_eq (auth_dir : string) (w : world) :
  load_credentials auth_dir w
  = let private_path := path_join auth_dir "private.json" in
    let w1 := World (files w) (trace w ++ [EvOpenRead private_path]) in
    match files w !! private_path with
    | None => (Raised (FileNotFoundError private_path), w1)
    | Some creds =>
        match py_getitem creds "consumer_key" with
        | Raised e => (Raised e, w1)
        | Returned ck =>
            match py_getitem creds "consumer_secret" with
            | Raised e => (Raised e, w1)
            | Returned cs => (Returned (creds, ck, cs), w1)
            end
        end
    end.
Proof.
  unfold load_credentials, json_load_file, emit, lift, bind, ret. cbn [files trace].
  destruct (files w !! path_join auth_dir "private.json") as [creds|]; [|reflexivity].
  destruct (py_getitem creds "consumer_key") as [ck|e]; [|reflexivity].
  destruct (py_getitem creds "consumer_secret") as [cs|e]; reflexivity.
Qed.

Lemma load_or_create_token_eq (p : string) (doc : pyval) (w : world) :
  load_or_create_token p doc w
  = match files w !! p with
    | Some token =>
        (Returned token, World (files w) (trace w ++ [EvIsFile p; EvOpenRead p]))
    | None =>
        (Returned doc,
         World (<[p := doc]> (files w)) (trace w ++ [EvIsFile p; EvOpenWrite p doc]))
    end.
Proof.
  unfold load_or_create_token, json_load_file, json_dump_file, isfile, emit, bind, ret.
  cbn [files trace].
  destruct (files w !! p) as [token|] eqn:Hp.
  - rewrite bool_decide_eq_true_2 by eauto. cbn [files trace].
    rewrite Hp, <- app_assoc. reflexivity.
  - rewrite bool_decide_eq_false_2
      by (apply eq_None_not_Some; first [exact Hp | reflexivity]).
    cbn [files trace]. rewrite <- app_assoc. reflexivity.
Qed.

Section BootstrapFacts.

Variable session : Type.
Variable OAuth2 : string -> gmap string pyval -> outcome session * gmap string pyval.
Variable token_is_valid : session -> bool.
Variable refresh_access_token :
  session -> gmap string pyval -> outcome session * gmap string pyval.

Abbreviation init := (init session OAuth2 token_is_valid refresh_access_token).
Abbreviation complete_handshake :=
  (complete_handshake session OAuth2 token_is_valid refresh_access_token).

Lemma complete_handshake_eq (token_path : string) (doc : pyval) (w : world) :
  complete_handshake token_path doc w
  = match doc with
    | PyDict d =>
        match OAuth2 token_path (files w) with
        | (Raised e, fs) => (Raised e, World fs (trace w ++ [EvOAuth2 token_path]))
        | (Returned s0, fs) =>
            if token_is_valid s0 then
              (Returned (dict_lookup "access_token" d, s0),
               World fs (trace w ++ [EvOAuth2 token_path; EvTokenIsValid]))
            else
              match refresh_access_token s0 fs with
              | (Raised e, fs1) =>
                  (Raised e,
                   World fs1 (trace w ++ [EvOAuth2 token_path; EvTokenIsValid;
                                          EvRefreshAccessToken]))
              | (Returned s1, fs1) =>
                  (Returned (dict_lookup "access_token" d, s1),
                   World fs1 (trace w ++ [EvOAuth2 token_path; EvTokenIsValid;
                                          EvRefreshAccessToken]))
              end
        end
    | _ => (Raised (AttributeError "keys"), w)
    end.
Proof.
  unfold Query.complete_handshake, oauth2_from_file, check_token, refresh, emit, lift,
    bind, ret.
  destruct doc as [| | | | |d|]; try reflexivity.
  cbn [py_has_key py_getitem obind files trace].
  destruct (dict_lookup "access_token" d) as [t|].
  - rewrite bool_decide_eq_true_2 by eauto.
    destruct (OAuth2 token_path (files w)) as [[s0|e] fs]; [|reflexivity].
    cbn [files trace]. destruct (token_is_valid s0).
    + rewrite <- app_assoc. reflexivity.
    + cbn [files trace]. destruct (refresh_access_token s0 fs) as [[s1|e] fs1];
        rewrite <- !app_assoc; reflexivity.
  - rewrite bool_decide_eq_false_2 by (intros [? ?]; discriminate).
    destruct (OAuth2 token_path (files w)) as [[s0|e] fs]; [|reflexivity].
    cbn [files trace]. destruct (token_is_valid s0).
    + rewrite <- app_assoc. reflexivity.
    + cbn [files trace]. destruct (refresh_access_token s0 fs) as [[s1|e] fs1];
        rewrite <- !app_assoc; reflexivity.
Qed.

(** The construction of a facade that is not offline, step by step. *)
Lemma init_online_eq (auth_dir : string) (lid : ident) (gid : option ident) (w : world) :
  init auth_dir lid gid false w
  = let private_path := path_join auth_dir "private.json" in
    let token_path := path_join auth_dir "token.json" in
    let w1 := World (files w) (trace w ++ [EvOpenRead private_path]) in
    match files w !! private_path with
    | None => (Raised (FileNotFoundError private_path), w1)
    | Some creds =>
        match py_getitem creds "consumer_key" with
        | Raised e => (Raised e, w1)
        | Returned ck =>
            match py_getitem creds "consumer_secret" with
            | Raised e => (Raised e, w1)
            | Returned cs =>
                let step :=
                  match files w !! token_path with
                  | Some token =>
                      (token,
                       World (files w)
                             (trace w ++ [EvOpenRead private_path; EvIsFile token_path;
                                          EvOpenRead token_path]))
                  | None =>
                      (creds,
                       World (<[token_path := creds]> (files w))
                             (trace w ++ [EvOpenRead private_path; EvIsFile token_path;
                                          EvOpenWrite token_path creds]))
                  end in
                match complete_handshake token_path step.1 step.2 with
                | (Returned h, w3) =>
                    (Returned (Facade session lid gid None false (Some ck) (Some cs)
                                      h.1 (Some h.2)), w3)
                | (Raised e, w3) => (Raised e, w3)
                end
            end
        end
    end.
Proof.
  unfold Query.init. cbn [negb]. unfold bind at 1. rewrite load_credentials_eq. cbv zeta.
  destruct (files w !! path_join auth_dir "private.json") as [creds|]; [|reflexivity].
  destruct (py_getitem creds "consumer_key") as [ck|e]; [|reflexivity].
  destruct (py_getitem creds "consumer_secret") as [cs|e]; [|reflexivity].
  unfold bind at 1. rewrite load_or_create_token_eq. cbn [files trace].
  destruct (files w !! path_join auth_dir "token.json") as [token|];
    rewrite <- app_assoc; cbn [app fst snd]; unfold bind, ret;
    match goal with
    | |- context [complete_handshake ?p ?d ?w0] =>
        destruct (complete_handshake p d w0) as [[[a s']|e] w3]
    end; reflexivity.
Qed.

(** X1. Without a credential file the construction of a facade that is
    not offline fails with [FileNotFoundError] at once: the attempt to open
    the file is the only event, no file is written and the OAuth library
    is not called. *)
Theorem init_missing_credentials (auth_dir : string) (lid : ident) (gid : option ident)
    (w : world) :
  files w !! path_join auth_dir "private.json" = None ->
  init auth_dir lid gid false w
  = (Raised (FileNotFoundError (path_join auth_dir "private.json")),
     World (files w) (trace w ++ [EvOpenRead (path_join auth_dir "private.json")])).
Proof.
  intros Hfile. rewrite init_online_eq. cbv zeta. rewrite Hfile. reflexivity.
Qed.

(** X2. A credential file that is a mapping without [consumer_key] or
    without [consumer_secret] makes the construction fail with a
    [KeyError] naming the first missing field; the token file is neither
    looked for nor written. *)
Theorem init_incomplete_credentials (auth_dir : string) (lid : ident)
    (gid : option ident) (w : world) (d : list (string * pyval)) :
  files w !! path_join auth_dir "private.json" = Some (PyDict d) ->
  dict_lookup "consumer_key" d = None \/ dict_lookup "consumer_secret" d = None ->
  init auth_dir lid gid false w
  = (Raised (KeyError (match dict_lookup "consumer_key" d with
                       | None => "consumer_key"
                       | Some _ => "consumer_secret"
                       end)),
     World (files w) (trace w ++ [EvOpenRead (path_join auth_dir "private.json")])).
Proof.
  intros Hfile Hmissing. rewrite init_online_eq. cbv zeta. rewrite Hfile.
  cbn [py_getitem].
  destruct (dict_lookup "consumer_key" d) as [ck|]; [|reflexivity].
  destruct Hmissing as [H|H]; [discriminate H|]. rewrite H. reflexivity.
Qed.

(** X3. On a facade that was constructed, the consumer key and secret are
    those of the credential file, and the access token is the
    [access_token] field of the token file when that file exists, of the
    credential file otherwise; it is left unset when the field is missing. *)
Theorem init_field_provenance (auth_dir : string) (lid : ident) (gid : option ident)
    (w w' : world) (self : facade session) :
  init auth_dir lid gid false w = (Returned self, w') ->
  exists (creds ck cs : pyval) (d : list (string * pyval)),
    files w !! path_join auth_dir "private.json" = Some creds
    /\ py_getitem creds "consumer_key" = Returned ck
    /\ _yahoo_consumer_key session self = Some ck
    /\ py_getitem creds "consumer_secret" = Returned cs
    /\ _yahoo_consumer_secret session self = Some cs
    /\ default creds (files w !! path_join auth_dir "token.json") = PyDict d
    /\ _yahoo_access_token session self = dict_lookup "access_token" d.
Proof.
  rewrite init_online_eq. cbv zeta. intros H.
  destruct (files w !! path_join auth_dir "private.json") as [creds|]; [|discriminate H].
  destruct (py_getitem creds "consumer_key") as [ck|e] eqn:Hck; [|discriminate H].
  destruct (py_getitem creds "consumer_secret") as [cs|e] eqn:Hcs; [|discriminate H].
  assert (Hdoc : forall (doc : pyval) (w2 : world),
             match complete_handshake (path_join auth_dir "token.json") doc w2 with
             | (Returned h, w3) =>
                 (Returned (Facade session lid gid None false (Some ck) (Some cs)
                                   h.1 (Some h.2)), w3)
             | (Raised e, w3) => (Raised e, w3)
             end = (Returned self, w') ->
             exists d, doc = PyDict d
                       /\ _yahoo_consumer_key session self = Some ck
                       /\ _yahoo_consumer_secret session self = Some cs
                       /\ _yahoo_access_token session self = dict_lookup "access_token" d).
  { intros doc w2 Hh. rewrite complete_handshake_eq in Hh.
    destruct doc as [| | | | |d|]; try discriminate Hh.
    exists d. split; [reflexivity|].
    destruct (OAuth2 _ (files w2)) as [[s0|e] fs]; [|discriminate Hh].
    destruct (token_is_valid s0).
    - injection Hh as <- _. repeat split; reflexivity.
    - destruct (refresh_access_token s0 fs) as [[s1|e] fs1]; [|discriminate Hh].
      injection Hh as <- _. repeat split; reflexivity. }
  destruct (files w !! path_join auth_dir "token.json") as [token|];
    cbn [fst snd] in H; apply Hdoc in H as (d & Hd & Hk & Hs & Ha);
    exists creds, ck, cs, d; repeat split; auto.
Qed.

(** X4. The construction of a facade that is not offline, when it
    succeeds, has done this and nothing else, in this order: read the
    credential file, test for the token file, read it or write it with
    the credentials, build the OAuth session from the token file, ask
    whether the token is valid, and refresh the token exactly when it is
    not. *)
Theorem init_effects_in_order (auth_dir : string) (lid : ident) (gid : option ident)
    (w w' : world) (self : facade session) :
  init auth_dir lid gid false w = (Returned self, w') ->
  let private_path := path_join auth_dir "private.json" in
  let token_path := path_join auth_dir "token.json" in
  exists (creds : pyval) (s0 : session) (fs0 : gmap string pyval),
    files w !! private_path = Some creds
    /\ OAuth2 token_path
              (match files w !! token_path with
               | Some _ => files w
               | None => <[token_path := creds]> (files w)
               end) = (Returned s0, fs0)
    /\ trace w'
       = trace w
         ++ [EvOpenRead private_path; EvIsFile token_path;
             match files w !! token_path with
             | Some _ => EvOpenRead token_path
             | None => EvOpenWrite token_path creds
             end;
             EvOAuth2 token_path; EvTokenIsValid]
         ++ (if token_is_valid s0 then [] else [EvRefreshAccessToken])
    /\ (if token_is_valid s0
        then oauth session self = Some s0 /\ files w' = fs0
        else exists s1 : session,
            refresh_access_token s0 fs0 = (Returned s1, files w')
            /\ oauth session self = Some s1).
Proof.
  rewrite init_online_eq. cbv zeta. intros H.
  destruct (files w !! path_join auth_dir "private.json") as [creds|]; [|discriminate H].
  destruct (py_getitem creds "consumer_key") as [ck|e]; [|discriminate H].
  destruct (py_getitem creds "consumer_secret") as [cs|e]; [|discriminate H].
  exists creds.
  destruct (files w !! path_join auth_dir "token.json") as [token|];
    cbn [fst snd] in H; rewrite complete_handshake_eq in H; cbn [files trace] in H.
  - destruct token as [| | | | |d|]; try discriminate H.
    destruct (OAuth2 _ (files w)) as [[s0|e] fs]; [|discriminate H].
    exists s0, fs. split; [reflexivity|]. split; [reflexivity|].
    destruct (token_is_valid s0).
    + injection H as <- <-. cbn [trace files oauth].
      rewrite <- app_assoc. repeat split; reflexivity.
    + destruct (refresh_access_token s0 fs) as [[s1|e] fs1]; [|discriminate H].
      injection H as <- <-. cbn [trace files oauth].
      rewrite <- app_assoc. split; [reflexivity|]. exists s1. split; reflexivity.
  - destruct creds as [| | | | |d|]; try discriminate H.
    destruct (OAuth2 _ _) as [[s0|e] fs]; [|discriminate H].
    exists s0, fs. split; [reflexivity|]. split; [reflexivity|].
    destruct (token_is_valid s0).
    + injection H as <- <-. cbn [trace files oauth].
      rewrite <- app_assoc. repeat split; reflexivity.
    + destruct (refresh_access_token s0 fs) as [[s1|e] fs1]; [|discriminate H].
      injection H as <- <-. cbn [trace files oauth].
      rewrite <- app_assoc. split; [reflexivity|]. exists s1. split; reflexivity.
Qed.

(** X5. A token file that exists but does not hold a mapping makes the
    construction fail with an attribute error (no [keys]) right after the
    file is read: the OAuth library is not called and nothing is written. *)
Theorem init_token_not_mapping (auth_dir : string) (lid : ident) (gid : option ident)
    (w : world) (creds ck cs token : pyval) :
  files w !! path_join auth_dir "private.json" = Some creds ->
  py_getitem creds "consumer_key" = Returned ck ->
  py_getitem creds "consumer_secret" = Returned cs ->
  files w !! path_join auth_dir "token.json" = Some token ->
  (forall d : list (string * pyval), token <> PyDict d) ->
  init auth_dir lid gid false w
  = (Raised (AttributeError "keys"),
     World (files w)
           (trace w ++ [EvOpenRead (path_join auth_dir "private.json");
                        EvIsFile (path_join auth_dir "token.json");
                        EvOpenRead (path_join auth_dir "token.json")])).
Proof.
  intros Hfile Hck Hcs Htok Hshape. rewrite init_online_eq. cbv zeta.
  rewrite Hfile, Hck, Hcs, Htok. cbn [fst snd]. rewrite complete_handshake_eq.
  destruct token as [| | | | |d|]; try reflexivity.
  exfalso. apply (Hshape d). reflexivity.
Qed.

(** X20. Whatever the mode, a facade that was constructed holds the
    league id and the game id it was given and no league key; it is
    offline exactly as asked, and it owns an OAuth session exactly when it
    is not offline. *)
Theorem init_postcondition (auth_dir : string) (lid : ident) (gid : option ident)
    (off : bool) (w w' : world) (self : facade session) :
  init auth_dir lid gid off w = (Returned self, w') ->
  league_id session self = lid
  /\ game_id session self = gid
  /\ league_key session self = None
  /\ offline session self = off
  /\ (oauth session self = None <-> off = true).
Proof.
  destruct off; intros H.
  - unfold Query.init, ret in H. cbn [negb] in H. injection H as <- _.
    cbn. repeat split; auto.
  - destruct (init_online_inv session OAuth2 token_is_valid refresh_access_token
                auth_dir lid gid w w' self H) as (Hoff & Hlid & Hgid & Hkey & s & Hs).
    repeat split; auto.
    + rewrite Hs. discriminate.
    + discriminate.
Qed.

End BootstrapFacts.

(** X6. When loading or creating the token returns a document, the token
    file then holds that document, and a second run from there returns
    the same document, whatever credentials it is given: it reads the
    file and writes nothing. *)
Theorem load_or_create_token_settles (p : string) (doc doc' x : pyval) (w w1 : world) :
  load_or_create_token p doc w = (Returned x, w1) ->
  files w1 !! p = Some x
  /\ load_or_create_token p doc' w1
     = (Returned x, World (files w1) (trace w1 ++ [EvIsFile p; EvOpenRead p])).
Proof.
  rewrite (load_or_create_token_eq p doc w). intros H.
  destruct (files w !! p) as [token|] eqn:Hp; injection H as <- <-; cbn [files trace].
  - split; [exact Hp|].
    rewrite load_or_create_token_eq. cbn [files trace]. rewrite Hp. reflexivity.
  - split; [apply lookup_insert_eq|].
    rewrite load_or_create_token_eq. cbn [files trace].
    rewrite lookup_insert_eq. reflexivity.
Qed.

(** X7. Loading or creating the token file never changes the credential
    file of the same directory. *)
Theorem load_or_create_token_keeps_credentials (auth_dir : string) (doc : pyval)
    (w : world) :
  files (load_or_create_token (path_join auth_dir "token.json") doc w).2
    !! path_join auth_dir "private.json"
  = files w !! path_join auth_dir "private.json".
Proof.
  rewrite load_or_create_token_eq.
  destruct (files w !! path_join auth_dir "token.json"); cbn [snd files]; [reflexivity|].
  apply lookup_insert_ne. intros H. symmetry in H.
  exact (private_path_not_token_path auth_dir H).
Qed.

(** ** Queries *)

Lemma bind_returned {A B} (m : M A) (k : A -> M B) (w w1 : world) (a : A) :
  m w = (Returned a, w1) -> bind m k w = k a w1.
Proof. intros H. unfold bind. rewrite H. reflexivity. Qed.

Lemma bind_raised {A B} (m : M A) (k : A -> M B) (w w1 : world) (e : exn) :
  m w = (Raised e, w1) -> bind m k w = (Raised e, w1).
Proof. intros H. unfold bind. rewrite H. reflexivity. Qed.

Section QueryFacts.

Variable session : Type.
Variable session_get :
  session -> list event -> string -> list (string * string) -> outcome pyval.
Variable reformat_json_list : list pyval -> outcome pyval.
Variable YahooFantasyObject : list (string * string).

Abbreviation query := (query session session_get reformat_json_list YahooFantasyObject).
Abbreviation descend := (descend reformat_json_list).
Abbreviation unpack := (Unpacker.unpack YahooFantasyObject).

(** A query through a session: its GET comes first and is its only one. *)
Lemma query_trace_online (self : facade session) (s : session) (url : string)
    (keys : list string) (ty : option string) (w : world) :
  offline session self = false ->
  oauth session self = Some s ->
  files (query self url keys ty w).2 = files w
  /\ exists rest : list event,
      trace (query self url keys ty w).2 = trace w ++ EvHttpGet url json_format :: rest
      /\ http_gets rest = [].
Proof.
  intros Hoff Hs.
  rewrite (query_online session session_get reformat_json_list YahooFantasyObject
             self s url keys ty w Hoff Hs).
  destruct (session_get s _ url json_format) as [doc|e].
  2:{ split; [reflexivity|]. exists []. split; reflexivity. }
  destruct (py_get doc "fantasy_content") as [payload|e].
  2:{ split; [reflexivity|]. eexists. split; reflexivity. }
  destruct (descend keys payload) as [raw|e];
    (split; [reflexivity|]; eexists; split; reflexivity).
Qed.

Lemma query_offline_eq (self : facade session) (url : string) (keys : list string)
    (ty : option string) (w : world) :
  offline session self = true ->
  query self url keys ty w
  = (Returned PyNone,
     World (files w)
           (trace w ++ [EvLog ERROR "CANNOT RUN YAHOO QUERY WHILE USING OFFLINE MODE!" []])).
Proof. intros Hoff. unfold Query.query. rewrite Hoff. reflexivity. Qed.

(** X8. A query never touches the files and never removes or reorders
    what happened before it: whatever the facade, the arguments and the
    outcome, the files are the same afterwards and the events are the
    earlier ones followed by new ones. *)
Theorem query_only_appends_events (self : facade session) (url : string)
    (keys : list string) (ty : option string) (w : world) :
  files (query self url keys ty w).2 = files w
  /\ exists new : list event, trace (query self url keys ty w).2 = trace w ++ new.
Proof.
  destruct (offline session self) eqn:Hoff.
  - rewrite query_offline_eq by exact Hoff. split; [reflexivity|]. eexists. reflexivity.
  - destruct (oauth session self) as [s|] eqn:Hs.
    + destruct (query_trace_online self s url keys ty w Hoff Hs) as [Hf [rest [Ht _]]].
      split; [exact Hf|]. eexists. exact Ht.
    + unfold Query.query, self_oauth. rewrite Hoff, Hs. cbn.
      split; [reflexivity|]. exists []. rewrite app_nil_r. reflexivity.
Qed.

(** X9. An error of the transport (the GET fails, or its body is not
    JSON) reaches the caller of a query as it is; nothing is logged after
    the request. *)
Theorem query_transport_error (self : facade session) (s : session) (url : string)
    (keys : list string) (ty : option string) (w : world) (e : exn) :
  offline session self = false ->
  oauth session self = Some s ->
  session_get s (trace w ++ [EvHttpGet url json_format]) url json_format = Raised e ->
  query self url keys ty w
  = (Raised e, World (files w) (trace w ++ [EvHttpGet url json_format])).
Proof.
  intros Hoff Hs Hget.
  rewrite (query_online session session_get reformat_json_list YahooFantasyObject
             self s url keys ty w Hoff Hs), Hget.
  reflexivity.
Qed.

(** X10. When the answer has no ["fantasy_content"] field, a query with
    an empty key path returns a record whose raw field is [None], and a
    query with any other key path fails with an attribute error; so does
    every query whose answer is not a mapping at all. *)
Theorem query_without_envelope (self : facade session) (s : session) (url : string)
    (ty : option string) (w : world) (doc : pyval) :
  offline session self = false ->
  oauth session self = Some s ->
  session_get s (trace w ++ [EvHttpGet url json_format]) url json_format = Returned doc ->
  (forall d : list (string * pyval),
      doc = PyDict d -> dict_lookup "fantasy_content" d = None ->
      (query self url [] ty w).1
      = Returned (PyDict [("data", match ty with
                                   | Some cls => instantiate cls PyNone
                                   | None => PyNone
                                   end);
                          ("url", PyStr url);
                          ("raw", PyNone)])
      /\ forall (k : string) (keys : list string),
          (query self url (k :: keys) ty w).1 = Raised (AttributeError "get"))
  /\ ((forall d : list (string * pyval), doc <> PyDict d) ->
      forall keys : list string,
        (query self url keys ty w).1 = Raised (AttributeError "get")).
Proof.
  intros Hoff Hs Hget. split.
  - intros d -> Hnone. split.
    + rewrite (query_online session session_get reformat_json_list YahooFantasyObject
                 self s url [] ty w Hoff Hs), Hget.
      cbn [py_get]. rewrite Hnone. cbn [default]. rewrite descend_nil.
      destruct ty; reflexivity.
    + intros k keys.
      rewrite (query_online session session_get reformat_json_list YahooFantasyObject
                 self s url (k :: keys) ty w Hoff Hs), Hget.
      cbn [py_get]. rewrite Hnone. cbn [default]. rewrite descend_cons. reflexivity.
  - intros Hshape keys.
    rewrite (query_online session session_get reformat_json_list YahooFantasyObject
               self s url keys ty w Hoff Hs), Hget.
    destruct doc as [| | | | |d|]; try reflexivity.
    exfalso. apply (Hshape d). reflexivity.
Qed.

Lemma descend_path_in_mappings (keys : list string) (v x : pyval) :
  path_in_mappings keys v = Some x -> descend keys v = Returned x.
Proof.
  revert v. induction keys as [|k keys IH]; intros v H.
  - injection H as <-. apply descend_nil.
  - cbn [path_in_mappings] in H.
    destruct v as [| | | | |d|]; try discriminate H.
    destruct (dict_lookup k d) as [y|] eqn:Hk; [|discriminate H].
    rewrite descend_cons. cbn [key_step py_get]. rewrite Hk. cbn [default obind].
    apply IH, H.
Qed.

(** X11. When the key path leads through nested mappings to a value, the
    query returns the record of that value: it is the raw field, and the
    data field is its unpacking (wrapped in the response type if there is
    one).  The normal form of sequences plays no part. *)
Theorem query_follows_mappings (self : facade session) (s : session) (url : string)
    (keys : list string) (ty : option string) (w : world) (doc payload x : pyval) :
  offline session self = false ->
  oauth session self = Some s ->
  session_get s (trace w ++ [EvHttpGet url json_format]) url json_format = Returned doc ->
  py_get doc "fantasy_content" = Returned payload ->
  path_in_mappings keys payload = Some x ->
  (query self url keys ty w).1
  = Returned (PyDict [("data", match ty with
                               | Some cls => instantiate cls (unpack x)
                               | None => unpack x
                               end);
                      ("url", PyStr url);
                      ("raw", x)]).
Proof.
  intros Hoff Hs Hget Hp Hpath.
  rewrite (query_online session session_get reformat_json_list YahooFantasyObject
             self s url keys ty w Hoff Hs), Hget, Hp.
  rewrite (descend_path_in_mappings keys payload x Hpath).
  destruct ty; reflexivity.
Qed.

(** X12. Descending a key path in two parts is descending the whole path:
    the second part starts from where the first one arrived, and an error
    of the first part is the error of the whole. *)
Theorem descend_in_two_parts (pre post : list string) (raw : pyval) :
  descend (pre ++ post) raw
  = match descend pre raw with
    | Returned middle => descend post middle
    | Raised e => Raised e
    end.
Proof.
  rewrite descend_app. destruct (descend pre raw); reflexivity.
Qed.

(** X13. A key path that is not empty cannot be followed from a value
    that is neither a sequence nor a mapping (a string, a number, a
    boolean, null): the descent fails with an attribute error, whatever
    the keys. *)
Theorem descend_from_scalar (k : string) (keys : list string) (v : pyval) :
  (forall l : list pyval, v <> PyList l) ->
  (forall d : list (string * pyval), v <> PyDict d) ->
  descend (k :: keys) v = Raised (AttributeError "get").
Proof.
  intros Hl Hd. rewrite descend_cons.
  destruct v as [| | | |l|d|]; try reflexivity.
  - exfalso. apply (Hl l). reflexivity.
  - exfalso. apply (Hd d). reflexivity.
Qed.

End QueryFacts.

(** ** The league key and the getters *)

Section LeagueFacts.

Variable session : Type.
Variable session_get :
  session -> list event -> string -> list (string * string) -> outcome pyval.
Variable reformat_json_list : list pyval -> outcome pyval.
Variable YahooFantasyObject : list (string * string).

Abbreviation query := (query session session_get reformat_json_list YahooFantasyObject).
Abbreviation get_league_key :=
  (get_league_key session session_get reformat_json_list YahooFantasyObject).
Abbreviation get_current_nfl_fantasy_game :=
  (get_current_nfl_fantasy_game session session_get reformat_json_list YahooFantasyObject).
Abbreviation get_nfl_fantasy_game :=
  (get_nfl_fantasy_game session session_get reformat_json_list YahooFantasyObject).
Abbreviation get_user_game_history :=
  (get_user_game_history session session_get reformat_json_list YahooFantasyObject).
Abbreviation get_user_league_history :=
  (get_user_league_history session session_get reformat_json_list YahooFantasyObject).
Abbreviation get_overview :=
  (get_overview session session_get reformat_json_list YahooFantasyObject).
Abbreviation get_standings :=
  (get_standings session session_get reformat_json_list YahooFantasyObject).
Abbreviation get_settings :=
  (get_settings session session_get reformat_json_list YahooFantasyObject).
Abbreviation get_teams :=
  (get_teams session session_get reformat_json_list YahooFantasyObject).
Abbreviation get_matchups :=
  (get_matchups session session_get reformat_json_list YahooFantasyObject).
Abbreviation get_team_roster :=
  (get_team_roster session session_get reformat_json_list YahooFantasyObject).
Abbreviation get_player_stats :=
  (get_player_stats session session_get reformat_json_list YahooFantasyObject).

(** The world in which the game lookup of [get_league_key] starts. *)
Lemma get_league_key_eq (self : facade session) (w : world) :
  league_key session self = None ->
  get_league_key self w
  = let w0 := if game_id_given session self then w
              else World (files w) (trace w ++ [EvLog WARNING msg_no_game_id []]) in
    match query self (game_url session self) ["game"] (Some "Game") w0 with
    | (Returned result, w1) => (league_key_of session self result, w1)
    | (Raised e, w1) => (Raised e, w1)
    end.
Proof.
  intros Hkey. unfold Query.get_league_key, game_id_given, game_url. rewrite Hkey.
  cbn [str_truthy negb].
  destruct (game_id session self) as [gid|]; [destruct (ident_truthy gid)|];
    unfold Query.get_nfl_fantasy_game, Query.get_current_nfl_fantasy_game,
      log, emit, lift, bind, msg_no_game_id; cbv zeta;
    match goal with
    | |- context [Query.query _ _ _ _ ?f ?u ?k ?t ?w0] =>
        destruct (Query.query session session_get reformat_json_list
                              YahooFantasyObject f u k t w0) as [[r|e] w1]
    end; reflexivity.
Qed.

Lemma league_key_of_none (self : facade session) :
  league_key_of session self PyNone = Raised (AttributeError "get").
Proof. reflexivity. Qed.

Lemma get_league_key_offline_eq (self : facade session) (w : world) :
  offline session self = true ->
  league_key session self = None ->
  get_league_key self w
  = (Raised (AttributeError "get"),
     World (files w)
           (trace w
            ++ (if game_id_given session self then []
                else [EvLog WARNING msg_no_game_id []])
            ++ [EvLog ERROR "CANNOT RUN YAHOO QUERY WHILE USING OFFLINE MODE!" []])).
Proof.
  intros Hoff Hkey. rewrite (get_league_key_eq self w Hkey). cbv zeta.
  rewrite (query_offline_eq session session_get reformat_json_list YahooFantasyObject)
    by exact Hoff.
  rewrite league_key_of_none.
  destruct (game_id_given session self); cbn [files trace app].
  - reflexivity.
  - rewrite <- app_assoc. reflexivity.
Qed.

(** X14. When [get_league_key] returns on a facade that holds no league
    key, the facade is not offline, the game query returned a record whose
    data has a string as its [game_key], the league id of the facade is a
    string, and the value is the game key, [".l."] and the league id.  A
    league id given as a number therefore never yields a league key. *)
Theorem get_league_key_value (self : facade session) (w : world) (v : pyval) :
  league_key session self = None ->
  (get_league_key self w).1 = Returned v ->
  offline session self = false
  /\ exists (result data : pyval) (game_key lid : string),
      (query self (game_url session self) ["game"] (Some "Game")
             (if game_id_given session self then w
              else World (files w) (trace w ++ [EvLog WARNING msg_no_game_id []]))).1
      = Returned result
      /\ py_get result "data" = Returned data
      /\ py_getattr data "game_key" = Returned (PyStr game_key)
      /\ league_id session self = IdStr lid
      /\ v = PyStr ((game_key +:+ ".l.") +:+ lid).
Proof.
  intros Hkey Hv. split.
  - destruct (offline session self) eqn:Hoff; [|reflexivity].
    rewrite (get_league_key_offline_eq self w Hoff Hkey) in Hv. discriminate Hv.
  - rewrite (get_league_key_eq self w Hkey) in Hv. cbv zeta in Hv.
    destruct (query self _ ["game"] (Some "Game") _) as [[result|e] w1];
      [|discriminate Hv].
    cbn [fst] in Hv.
    destruct (league_key_of_concat session self result v Hv)
      as (data & gk & lid & Hdata & Hgk & Hlid & ->).
    exists result, data, gk, lid. repeat split; auto.
Qed.

(** X15. On an offline facade [get_league_key] does not return [None] as
    a query does: it fails with an attribute error, after the error of the
    query was logged, without any request and without touching the files. *)
Theorem get_league_key_offline (self : facade session) (w : world) :
  offline session self = true ->
  league_key session self = None ->
  (get_league_key self w).1 = Raised (AttributeError "get")
  /\ files (get_league_key self w).2 = files w
  /\ http_gets (trace (get_league_key self w).2) = http_gets (trace w)
  /\ EvLog ERROR "CANNOT RUN YAHOO QUERY WHILE USING OFFLINE MODE!" []
     ∈ trace (get_league_key self w).2.
Proof.
  intros Hoff Hkey. rewrite (get_league_key_offline_eq self w Hoff Hkey).
  cbn [fst snd files trace]. split; [reflexivity|]. split; [reflexivity|]. split.
  - rewrite !http_gets_app. destruct (game_id_given session self); cbn [http_gets app];
      apply app_nil_r.
  - rewrite !elem_of_app. right. right. left.
Qed.

(** X16. Through a session, [get_league_key] sends one GET: for the game
    of the facade's game id when one was given that is neither zero nor
    empty, and otherwise for the current game ([game/nfl]), after a
    warning was logged. *)
Theorem get_league_key_request (self : facade session) (s : session) (w : world) :
  offline session self = false ->
  oauth session self = Some s ->
  league_key session self = None ->
  exists rest : list event,
    trace (get_league_key self w).2
    = trace w
      ++ (if game_id_given session self then [] else [EvLog WARNING msg_no_game_id []])
      ++ EvHttpGet (game_url session self) json_format :: rest
    /\ http_gets rest = [].
Proof.
  intros Hoff Hs Hkey. rewrite (get_league_key_eq self w Hkey). cbv zeta.
  match goal with
  | |- context [Query.query _ _ _ _ self ?u ?k ?t ?w0] =>
      destruct (query_trace_online session session_get reformat_json_list
                  YahooFantasyObject self s u k t w0 Hoff Hs) as [_ [rest [Ht Hrest]]];
      destruct (Query.query session session_get reformat_json_list
                            YahooFantasyObject self u k t w0) as [[r|e] w1]
  end; cbn [snd] in *; exists rest; (split; [|exact Hrest]); rewrite Ht;
    destruct (game_id_given session self); cbn [trace app]; try reflexivity;
    rewrite <- app_assoc; reflexivity.
Qed.

Lemma get_league_key_gets (self : facade session) (s : session) (w : world) :
  offline session self = false ->
  oauth session self = Some s ->
  league_key session self = None ->
  http_gets (trace (get_league_key self w).2)
  = http_gets (trace w) ++ [(game_url session self, json_format)].
Proof.
  intros Hoff Hs Hkey. rewrite (get_league_key_eq self w Hkey). cbv zeta.
  match goal with
  | |- context [Query.query _ _ _ _ self ?u ?k ?t ?w0] =>
      pose proof (query_http_gets session session_get reformat_json_list
                    YahooFantasyObject self s u k t w0 Hoff Hs) as Hg;
      destruct (Query.query session session_get reformat_json_list
                            YahooFantasyObject self u k t w0) as [[r|e] w1]
  end; cbn [snd] in *; rewrite Hg;
    destruct (game_id_given session self); cbn [trace]; try reflexivity;
    rewrite http_gets_app; cbn [http_gets]; rewrite app_nil_r; reflexivity.
Qed.

(** Running a getter whose league key lookup returned [key]. *)
Ltac after_league_key H :=
  rewrite (bind_returned _ _ _ _ _ H);
  cbn [py_sum add_strs lift];
  unfold lift; unfold bind at 1; cbv beta iota;
  try (unfold bind at 1; cbv beta iota).

Lemma get_league_key_returns_str (self : facade session) (w w1 : world) (v : pyval) :
  league_key session self = None ->
  get_league_key self w = (Returned v, w1) ->
  exists key : string, v = PyStr key.
Proof.
  intros Hnone H. rewrite (get_league_key_eq self w Hnone) in H. cbv zeta in H.
  destruct (query self _ ["game"] (Some "Game") _) as [[result|e] w2];
    [|discriminate H].
  injection H as H _.
  destruct (league_key_of_concat session self result v H)
    as (data & gk & lid & _ & _ & _ & ->).
  eexists. reflexivity.
Qed.

(** X18. Through a session, every getter of league data first sends the
    game lookup of [get_league_key], which is made afresh each time.  When
    the lookup returns, the league key is a string and the getter sends
    exactly one more GET, to its own URL built around the key: two
    requests in all.  When the lookup fails (as it does with a league id
    given as a number), the getter fails with the same error after that
    single request. *)
Theorem league_getters_requests (self : facade session) (s : session) (w : world)
    (team_id player_key chosen_week : ident) :
  offline session self = false ->
  oauth session self = Some s ->
  league_key session self = None ->
  let lookup := (game_url session self, json_format) in
  let requests (getter : M pyval) (url : string -> string) : Prop :=
    match (get_league_key self w).1 with
    | Returned v =>
        exists key : string,
          v = PyStr key
          /\ http_gets (trace (getter w).2)
             = http_gets (trace w) ++ [lookup; (url key, json_format)]
    | Raised e =>
        (getter w).1 = Raised e
        /\ http_gets (trace (getter w).2) = http_gets (trace w) ++ [lookup]
    end in
  requests (get_overview self)
           (fun key => ((base_url +:+ "league/") +:+ key) +:+ "/")
  /\ requests (get_standings self)
              (fun key => ((base_url +:+ "league/") +:+ key) +:+ "/standings")
  /\ requests (get_settings self)
              (fun key => ((base_url +:+ "league/") +:+ key) +:+ "/settings")
  /\ requests (get_teams self)
              (fun key => ((base_url +:+ "league/") +:+ key) +:+ "/teams")
  /\ requests (get_matchups self chosen_week)
              (fun key => (((base_url +:+ "league/") +:+ key) +:+ "/scoreboard;week=")
                          +:+ ident_str chosen_week)
  /\ requests (get_team_roster self team_id chosen_week)
              (fun key => ((((base_url +:+ "team/")
                             +:+ ((key +:+ ".t.") +:+ ident_str team_id))
                            +:+ "/roster;week=") +:+ ident_str chosen_week)
                          +:+ "/players/stats")
  /\ requests (get_player_stats self player_key chosen_week)
              (fun key => (((((base_url +:+ "league/") +:+ key)
                              +:+ "/players;player_keys=") +:+ ident_str player_key)
                            +:+ "/stats;type=week;week=") +:+ ident_str chosen_week).
Proof.
  intros Hoff Hs Hnone lookup requests. subst requests lookup. cbv beta.
  pose proof (get_league_key_gets self s w Hoff Hs Hnone) as Hfirst.
  destruct (get_league_key self w) as [[v|e] w1] eqn:Hkey; cbn [fst snd] in *.
  - destruct (get_league_key_returns_str self w w1 v Hnone Hkey) as [key ->].
    assert (Hsecond : forall url keys ty,
               http_gets (trace (query self url keys ty w1).2)
               = http_gets (trace w)
                 ++ [(game_url session self, json_format); (url, json_format)]).
    { intros url keys ty.
      rewrite (query_http_gets session session_get reformat_json_list
                 YahooFantasyObject self s url keys ty w1 Hoff Hs), Hfirst,
        <- app_assoc.
      reflexivity. }
    repeat apply conj; exists key; (split; [reflexivity|]);
      [ unfold Query.get_overview | unfold Query.get_standings
      | unfold Query.get_settings | unfold Query.get_teams
      | unfold Query.get_matchups | unfold Query.get_team_roster
      | unfold Query.get_player_stats ];
      after_league_key Hkey; apply Hsecond.
  - repeat apply conj;
      unfold Query.get_overview, Query.get_standings, Query.get_settings,
        Query.get_teams, Query.get_matchups, Query.get_team_roster,
        Query.get_player_stats;
      rewrite (bind_raised _ _ _ _ _ Hkey); cbn [fst snd];
      first [reflexivity | exact Hfirst].
Qed.

(** X19. An offline facade answers its getters in two different ways,
    never sending a request: those that query directly (the current game,
    a game by id, the user's game and league histories) return [None],
    while those that need the league key fail with an attribute error. *)
Theorem getters_offline (self : facade session) (w : world)
    (gid team_id player_key chosen_week : ident) :
  offline session self = true ->
  league_key session self = None ->
  let answers (getter : M pyval) (r : outcome pyval) : Prop :=
    (getter w).1 = r
    /\ http_gets (trace (getter w).2) = http_gets (trace w)
    /\ files (getter w).2 = files w in
  answers (get_current_nfl_fantasy_game self) (Returned PyNone)
  /\ answers (get_nfl_fantasy_game self gid) (Returned PyNone)
  /\ answers (get_user_game_history self) (Returned PyNone)
  /\ answers (get_user_league_history self) (Returned PyNone)
  /\ answers (get_overview self) (Raised (AttributeError "get"))
  /\ answers (get_standings self) (Raised (AttributeError "get"))
  /\ answers (get_settings self) (Raised (AttributeError "get"))
  /\ answers (get_teams self) (Raised (AttributeError "get"))
  /\ answers (get_matchups self chosen_week) (Raised (AttributeError "get"))
  /\ answers (get_team_roster self team_id chosen_week) (Raised (AttributeError "get"))
  /\ answers (get_player_stats self player_key chosen_week)
             (Raised (AttributeError "get")).
Proof.
  intros Hoff Hnone answers.
  assert (Hdirect : forall url keys ty,
             answers (query self url keys ty) (Returned PyNone)).
  { intros url keys ty. unfold answers.
    rewrite (query_offline_eq session session_get reformat_json_list YahooFantasyObject)
      by exact Hoff.
    cbn [fst snd files trace]. repeat split.
    rewrite http_gets_app. apply app_nil_r. }
  assert (Hleague : forall k : pyval -> M pyval,
             answers (bind (get_league_key self) k) (Raised (AttributeError "get"))).
  { intros k. unfold answers.
    rewrite (bind_raised _ k _ _ _ (get_league_key_offline_eq self w Hoff Hnone)).
    cbn [fst snd files trace]. repeat split.
    rewrite !http_gets_app. destruct (game_id_given session self); cbn [http_gets app];
      apply app_nil_r. }
  repeat apply conj; first [apply Hdirect | apply Hleague].
Qed.

End LeagueFacts.

(** ** The further properties at work *)

Lemma init_missing_credentials_witness :
  Sample.init "auth" (IdStr "12345") None false Sample.empty_world
  = (Raised (FileNotFoundError "auth/private.json"),
     World ∅ [EvOpenRead "auth/private.json"]).
Proof.
  exact (init_missing_credentials unit Sample.OAuth2 Sample.token_is_valid
           Sample.refresh_access_token "auth" (IdStr "12345") None
           Sample.empty_world eq_refl).
Defined.

Lemma init_incomplete_credentials_witness :
  (Sample.init "auth" (IdStr "12345") None false Sample.partial_world).1
  = Raised (KeyError "consumer_secret").
Proof.
  exact (f_equal fst
           (init_incomplete_credentials unit Sample.OAuth2 Sample.token_is_valid
              Sample.refresh_access_token "auth" (IdStr "12345") None
              Sample.partial_world [("consumer_key", PyStr "key")]
              eq_refl (or_intror eq_refl))).
Defined.

Lemma init_field_provenance_witness :
  exists (creds ck cs : pyval) (d : list (string * pyval)),
    files Sample.used_world !! "auth/private.json" = Some creds
    /\ py_getitem creds "consumer_key" = Returned ck
    /\ Some (PyStr "key") = Some ck
    /\ py_getitem creds "consumer_secret" = Returned cs
    /\ Some (PyStr "secret") = Some cs
    /\ default creds (files Sample.used_world !! "auth/token.json") = PyDict d
    /\ Some (PyStr "abc") = dict_lookup "access_token" d.
Proof.
  exact (init_field_provenance unit Sample.OAuth2 Sample.token_is_valid
           Sample.refresh_access_token "auth" (IdStr "12345") (Some (IdInt 390))
           Sample.used_world
           (Sample.init "auth" (IdStr "12345") (Some (IdInt 390)) false
                        Sample.used_world).2
           (Facade unit (IdStr "12345") (Some (IdInt 390)) None false
                   (Some (PyStr "key")) (Some (PyStr "secret")) (Some (PyStr "abc"))
                   (Some tt))
           ltac:(vm_compute; reflexivity)).
Defined.

Lemma init_effects_in_order_witness :
  trace (Query.init unit Sample.OAuth2 Sample.token_is_stale Sample.refresh_access_token
           "auth" (IdStr "12345") (Some (IdInt 390)) false Sample.fresh_world).2
  = [EvOpenRead "auth/private.json"; EvIsFile "auth/token.json";
     EvOpenWrite "auth/token.json" Sample.credentials;
     EvOAuth2 "auth/token.json"; EvTokenIsValid; EvRefreshAccessToken].
Proof.
  destruct (init_effects_in_order unit Sample.OAuth2 Sample.token_is_stale
              Sample.refresh_access_token "auth" (IdStr "12345") (Some (IdInt 390))
              Sample.fresh_world
              (Query.init unit Sample.OAuth2 Sample.token_is_stale
                 Sample.refresh_access_token
                 "auth" (IdStr "12345") (Some (IdInt 390)) false Sample.fresh_world).2
              Sample.online
              ltac:(vm_compute; reflexivity))
    as (creds & s0 & fs0 & Hcreds & _ & Htrace & _).
  vm_compute in Hcreds. injection Hcreds as <-.
  rewrite Htrace. reflexivity.
Defined.

Lemma init_token_not_mapping_witness :
  Sample.init "auth" (IdStr "12345") None false Sample.odd_world
  = (Raised (AttributeError "keys"),
     World (files Sample.odd_world)
           [EvOpenRead "auth/private.json"; EvIsFile "auth/token.json";
            EvOpenRead "auth/token.json"]).
Proof.
  exact (init_token_not_mapping unit Sample.OAuth2 Sample.token_is_valid
           Sample.refresh_access_token "auth" (IdStr "12345") None Sample.odd_world
           Sample.credentials (PyStr "key") (PyStr "secret") (PyList [])
           eq_refl eq_refl eq_refl eq_refl
           ltac:(intros d H; discriminate H)).
Defined.

Lemma query_transport_error_witness :
  Query.query unit Sample.failing_get Sample.reformat_json_list Sample.models
              Sample.online "u" ["game"] None Sample.empty_world
  = (Raised (ExternalError "ConnectionError"), World ∅ [EvHttpGet "u" json_format]).
Proof.
  exact (query_transport_error unit Sample.failing_get Sample.reformat_json_list
           Sample.models Sample.online tt "u" ["game"] None Sample.empty_world
           (ExternalError "ConnectionError") eq_refl eq_refl eq_refl).
Defined.

Lemma query_without_envelope_witness :
  (Query.query unit Sample.bare_get Sample.reformat_json_list Sample.models
               Sample.online "u" [] None Sample.empty_world).1
  = Returned (PyDict [("data", PyNone); ("url", PyStr "u"); ("raw", PyNone)]).
Proof.
  exact (proj1 (proj1 (query_without_envelope unit Sample.bare_get
                         Sample.reformat_json_list Sample.models Sample.online tt "u"
                         None Sample.empty_world
                         (PyDict [("error", PyStr "nothing here")])
                         eq_refl eq_refl eq_refl)
                      [("error", PyStr "nothing here")] eq_refl eq_refl)).
Defined.

Lemma query_follows_mappings_witness :
  (Sample.query Sample.online "u" ["game"; "game_key"] None Sample.empty_world).1
  = Returned (PyDict [("data", PyStr "390"); ("url", PyStr "u"); ("raw", PyStr "390")]).
Proof.
  exact (query_follows_mappings unit Sample.session_get Sample.reformat_json_list
           Sample.models Sample.online tt "u" ["game"; "game_key"] None
           Sample.empty_world Sample.game_document
           (PyDict [("game", PyDict [("game_key", PyStr "390"); ("name", PyStr "nfl")]);
                    ("league", PyDict [])])
           (PyStr "390")
           eq_refl eq_refl eq_refl eq_refl eq_refl).
Defined.

Lemma descend_from_scalar_witness :
  Sample.descend ["game"; "game_key"] (PyInt 7) = Raised (AttributeError "get").
Proof.
  exact (descend_from_scalar Sample.reformat_json_list "game" ["game_key"] (PyInt 7)
           ltac:(intros l H; discriminate H) ltac:(intros d H; discriminate H)).
Defined.

Lemma get_league_key_value_witness :
  exists game_key lid : string,
    league_id unit Sample.online = IdStr lid
    /\ PyStr "390.l.12345" = PyStr ((game_key +:+ ".l.") +:+ lid).
Proof.
  destruct (get_league_key_value unit Sample.session_get Sample.reformat_json_list
              Sample.models Sample.online Sample.empty_world (PyStr "390.l.12345")
              eq_refl ltac:(vm_compute; reflexivity))
    as (_ & result & data & game_key & lid & _ & _ & _ & Hlid & Hv).
  exists game_key, lid. split; [exact Hlid | exact Hv].
Defined.

Lemma get_league_key_offline_witness :
  (Sample.get_league_key Sample.offline_facade Sample.empty_world).1
  = Raised (AttributeError "get").
Proof.
  exact (proj1 (get_league_key_offline unit Sample.session_get Sample.reformat_json_list
                  Sample.models Sample.offline_facade Sample.empty_world
                  eq_refl eq_refl)).
Defined.

Lemma get_league_key_request_witness :
  exists rest : list event,
    trace (Sample.get_league_key Sample.online Sample.empty_world).2
    = EvHttpGet "https://fantasysports.yahooapis.com/fantasy/v2/game/390" json_format
      :: rest
    /\ http_gets rest = [].
Proof.
  exact (get_league_key_request unit Sample.session_get Sample.reformat_json_list
           Sample.models Sample.online tt Sample.empty_world
           eq_refl eq_refl eq_refl).
Defined.

Lemma league_getters_requests_witness :
  http_gets (trace (Query.get_team_roster unit Sample.session_get
                      Sample.reformat_json_list Sample.models
                      Sample.online (IdInt 3) (IdInt 1) Sample.empty_world).2)
  = [("https://fantasysports.yahooapis.com/fantasy/v2/game/390", json_format);
     ("https://fantasysports.yahooapis.com/fantasy/v2/team/390.l.12345.t.3/roster;week=1/players/stats",
      json_format)]
  /\ (Query.get_overview unit Sample.session_get Sample.reformat_json_list Sample.models
                         Sample.numbered Sample.empty_world).1
     = Raised TypeError
  /\ http_gets (trace (Query.get_overview unit Sample.session_get
                         Sample.reformat_json_list Sample.models
                         Sample.numbered Sample.empty_world).2)
     = [("https://fantasysports.yahooapis.com/fantasy/v2/game/390", json_format)].
Proof.
  pose proof (league_getters_requests unit Sample.session_get
                Sample.reformat_json_list Sample.models Sample.online tt
                Sample.empty_world (IdInt 3) (IdStr "390.p.100") (IdInt 1)
                eq_refl eq_refl eq_refl) as Hstr.
  pose proof (league_getters_requests unit Sample.session_get
                Sample.reformat_json_list Sample.models Sample.numbered tt
                Sample.empty_world (IdInt 3) (IdStr "390.p.100") (IdInt 1)
                eq_refl eq_refl eq_refl) as Hint.
  cbv zeta in Hstr, Hint.
  destruct Hstr as (_ & _ & _ & _ & _ & Hroster & _).
  destruct Hint as (Hoverview & _).
  split.
  - destruct Hroster as [key [Hkey Hgets]].
    injection Hkey as <-. exact Hgets.
  - exact Hoverview.
Defined.

Lemma getters_offline_witness :
  (Query.get_user_game_history unit Sample.session_get Sample.reformat_json_list
     Sample.models Sample.offline_facade Sample.empty_world).1 = Returned PyNone
  /\ (Query.get_standings unit Sample.session_get Sample.reformat_json_list
        Sample.models Sample.offline_facade Sample.empty_world).1
     = Raised (AttributeError "get").
Proof.
  pose proof (getters_offline unit Sample.session_get Sample.reformat_json_list
                Sample.models Sample.offline_facade Sample.empty_world
                (IdInt 390) (IdInt 3) (IdStr "390.p.100") (IdInt 1)
                eq_refl eq_refl) as H.
  cbv zeta in H.
  destruct H as (_ & _ & [Hhistory _] & _ & _ & [Hstandings _] & _).
  split; [exact Hhistory | exact Hstandings].
Defined.

Lemma init_postcondition_witness :
  league_id unit Sample.online = IdStr "12345"
  /\ game_id unit Sample.online = Some (IdInt 390)
  /\ league_key unit Sample.online = None
  /\ offline unit Sample.online = false
  /\ (oauth unit Sample.online = None <-> false = true).
Proof.
  exact (init_postcondition unit Sample.OAuth2 Sample.token_is_valid
           Sample.refresh_access_token "auth" (IdStr "12345") (Some (IdInt 390)) false
           Sample.fresh_world
           (Sample.init "auth" (IdStr "12345") (Some (IdInt 390)) false
                        Sample.fresh_world).2
           Sample.online ltac:(vm_compute; reflexivity)).
Defined.

Lemma load_or_create_token_settles_witness :
  files (load_or_create_token "auth/token.json" Sample.credentials Sample.fresh_world).2
    !! "auth/token.json" = Some Sample.credentials
  /\ (load_or_create_token "auth/token.json" Sample.token
        (load_or_create_token "auth/token.json" Sample.credentials Sample.fresh_world).2).1
     = Returned Sample.credentials.
Proof.
  destruct (load_or_create_token_settles "auth/token.json" Sample.credentials Sample.token
              Sample.credentials Sample.fresh_world
              (load_or_create_token "auth/token.json" Sample.credentials
                                    Sample.fresh_world).2
              ltac:(vm_compute; reflexivity)) as [Hfile Hagain].
  split; [exact Hfile|]. rewrite Hagain. reflexivity.
Defined.
